(** * photoapp: moderation, token revocation and rating routes

    A shallow embedding of

    - [src/repository/users.py]: [get_user_by_email], [create_user],
      [update_token], [confirmed_email], [edit_my_profile],
      [change_password], [get_user_username], [get_all_users], [ban_user],
      [activate_user], [invalidate_token], [is_validate_token];
    - [src/routes/users.py]: [edit_my_profile], [manage_user];
    - [src/routes/rating.py]: [create_picture_rating], [picture_ratings],
      [remove_photo_rating].

    The handlers are [async] functions over a SQLAlchemy session and a Redis
    client.  They are embedded in a state-and-exception monad [M] over a
    [World] that holds the tables of the entity store, the Redis cache and
    the chronological log of the effects performed on both.

    The declarations of the tables and of the enumerations
    ([src/database/models.py], [src/schemas]) and the ratings repository
    ([src/repository/rating.py]) are not among the sources.  They are
    modelled from the specification, and each such definition says so.
    The users repository is among the sources in full; it defines no
    [change_role], although [manage_user] asks it for one. *)

From stdpp Require Import gmap strings list.
From Stdlib Require Import ZArith QArith_base.

Local Open Scope Z_scope.
Local Open Scope string_scope.
Local Open Scope list_scope.

(** ** Data model *)

(** Modelled from the spec: the enumeration [Role] of
    [src/database/models.py], which is not part of the sources: "role (enum:
    admin, moderator, user)". *)
Module Role.
Inductive t := admin | moderator | user.

#[global] Instance eq_dec : EqDecision t.
Proof. solve_decision. Defined.

(** Python's [==] on enumeration members. *)
Definition eqb (a b : t) : bool := bool_decide (a = b).

(** Truth value of a member, as for every member of a Python [Enum]. *)
Definition truthy (r : t) : bool := true.

(** [f"{role}"]. *)
Definition str (r : t) : string :=
  match r with
  | admin => "Role.admin"
  | moderator => "Role.moderator"
  | user => "Role.user"
  end.
End Role.

(** Python's [a or b]: the first operand when it is truthy, else the second. *)
Definition py_or (a b : Role.t) : Role.t := if Role.truthy a then a else b.

(** Modelled from the spec: the enumeration [Action] of
    [src/schemas/users.py], which is not part of the sources: "Action enum
    surface: {ban, activate, change_role}". *)
Module Action.
Inductive t := ban | activate | change_role.

#[global] Instance eq_dec : EqDecision t.
Proof. solve_decision. Defined.

Definition eqb (a b : t) : bool := bool_decide (a = b).
End Action.

(** Modelled from the spec: a row of the [users] table, whose declaration
    in [src/database/models.py] is not part of the sources: "identity (id),
    email (unique), username (unique, mutable), role, is_active (bool),
    confirmed (bool), avatar reference, refresh-token reference".  The
    fields carry the names the handlers use; [password] is the attribute
    [change_password] assigns.  The timestamps are left out: no handler
    embedded here reads them. *)
Record User := mkUser {
  id : Z;
  email : string;
  username : string;
  password : string;
  roles : Role.t;
  is_active : bool;
  confirmed : bool;
  avatar : string;
  refresh_token : option string
}.

#[global] Instance User_eq_dec : EqDecision User.
Proof. solve_decision. Defined.

(** [user.is_active = b]. *)
Definition set_is_active (b : bool) (u : User) : User :=
  mkUser (id u) (email u) (username u) (password u) (roles u) b
         (confirmed u) (avatar u) (refresh_token u).

(** [user.username = name]. *)
Definition set_username (name : string) (u : User) : User :=
  mkUser (id u) (email u) name (password u) (roles u) (is_active u)
         (confirmed u) (avatar u) (refresh_token u).

(** [user.password = p]. *)
Definition set_password (p : string) (u : User) : User :=
  mkUser (id u) (email u) (username u) p (roles u) (is_active u)
         (confirmed u) (avatar u) (refresh_token u).

(** [user.confirmed = b]. *)
Definition set_confirmed (b : bool) (u : User) : User :=
  mkUser (id u) (email u) (username u) (password u) (roles u) (is_active u)
         b (avatar u) (refresh_token u).

(** [user.avatar = url]. *)
Definition set_avatar (url : string) (u : User) : User :=
  mkUser (id u) (email u) (username u) (password u) (roles u) (is_active u)
         (confirmed u) url (refresh_token u).

(** [user.refresh_token = t]. *)
Definition set_refresh_token (t : option string) (u : User) : User :=
  mkUser (id u) (email u) (username u) (password u) (roles u) (is_active u)
         (confirmed u) (avatar u) t.

(** Truth value of a Python string: only the empty string is false. *)
Definition str_truthy (s : string) : bool :=
  match s with
  | EmptyString => false
  | String _ _ => true
  end.

(** Truth value of a [str | None]. *)
Definition opt_str_truthy (o : option string) : bool :=
  match o with
  | Some s => str_truthy s
  | None => false
  end.

(** Modelled from the spec: the registration body [UserModel] of
    [src/schemas/user.py], which is not part of the sources; its fields are
    the ones of a [User] that the caller supplies. *)
Record UserModel := mkUserModel {
  body_username : string;
  body_email : string;
  body_password : string
}.

(** Modelled from the spec: a row of the [invalid_tokens] table, declared
    in [src/database/models.py]: "token string (unique)". *)
Record InvalidToken := mkInvalidToken { token : string }.

#[global] Instance InvalidToken_eq_dec : EqDecision InvalidToken.
Proof. solve_decision. Defined.

(** Modelled from the spec: a row of the [ratings] table, declared in
    [src/database/models.py]: "composite identity (user_id, picture_id),
    value (integer, 1–5 inclusive)". *)
Record Rating := mkRating {
  rating_user_id : Z;
  rating_picture_id : Z;
  rating : Z
}.

#[global] Instance Rating_eq_dec : EqDecision Rating.
Proof. solve_decision. Defined.

(** The tables of the entity store, each in insertion order. *)
Record Tables := mkTables {
  users : list User;
  invalid_tokens : list InvalidToken;
  ratings : list Rating
}.

(** Modelled from the spec: the uniqueness constraints of the schema, whose
    declaration is not part of the sources: "email (unique)", "username
    (unique)", "token string (unique)" and "at most one Rating per
    (user_id, picture_id) pair". *)
Definition constraints (t : Tables) : Prop :=
  NoDup (email <$> users t) ∧
  NoDup (username <$> users t) ∧
  NoDup (token <$> invalid_tokens t) ∧
  NoDup ((λ r, (rating_user_id r, rating_picture_id r)) <$> ratings t).

#[global] Instance constraints_dec t : Decision (constraints t).
Proof. unfold constraints. apply _. Defined.

(** ** Exceptions and effects *)

Inductive Exn :=
| HTTPException (status_code : Z) (detail : string)
| IntegrityError
| OperationalError
| MultipleResultsFound
| NoResultFound
| AttributeError.

#[global] Instance Exn_eq_dec : EqDecision Exn.
Proof. solve_decision. Defined.

(** What was done to the collaborators, oldest first. *)
Inductive Event :=
| RedisDelete (key : string)
| Commit
| CommitFailed (e : Exn)
| Rollback.

#[global] Instance Event_eq_dec : EqDecision Event.
Proof. solve_decision. Defined.

Record World := mkWorld {
  tables : Tables;
  (** whether the store accepts the commits of this request *)
  storage_ok : bool;
  redis : gmap string string;
  log : list Event
}.

Definition with_tables (t : Tables) (w : World) : World :=
  mkWorld t (storage_ok w) (redis w) (log w).

Definition with_redis (r : gmap string string) (w : World) : World :=
  mkWorld (tables w) (storage_ok w) r (log w).

Definition emit (e : Event) (w : World) : World :=
  mkWorld (tables w) (storage_ok w) (redis w) (log w ++ [e]).

Inductive Res (A : Type) :=
| Ok (a : A)
| Raise (e : Exn).
Arguments Ok {A} a.
Arguments Raise {A} e.

Definition M (A : Type) : Type := World → Res A * World.

Definition ret {A} (a : A) : M A := λ w, (Ok a, w).

Definition raise {A} (e : Exn) : M A := λ w, (Raise e, w).

Definition bind {A B} (c : M A) (k : A → M B) : M B :=
  λ w, match c w with
       | (Ok a, w') => k a w'
       | (Raise e, w') => (Raise e, w')
       end.

(** [try: c except Exception as e: h e]. *)
Definition try_except {A} (c : M A) (h : Exn → M A) : M A :=
  λ w, match c w with
       | (Ok a, w') => (Ok a, w')
       | (Raise e, w') => h e w'
       end.

Notation "'let*' x ':=' c 'in' k" := (bind c (λ x, k))
  (at level 10, x name, c at level 100, k at level 200,
   format "'[v' 'let*'  x  :=  c  in '/' k ']'").
Notation "'run' c 'in' k" := (bind c (λ _, k))
  (at level 10, c at level 100, k at level 200,
   format "'[v' 'run'  c  in '/' k ']'").

(** ** The collaborators *)

(** [await db.execute(select(...))]: the rows of a table, as the session
    sees them. *)
Definition db_execute {A} (query : Tables → list A) : M (list A) :=
  λ w, (Ok (query (tables w)), w).

(** [Result.scalar_one_or_none()]. *)
Definition scalar_one_or_none {A} (rows : list A) : M (option A) :=
  match rows with
  | [] => ret None
  | [x] => ret (Some x)
  | _ => raise MultipleResultsFound
  end.

(** [await db.commit()] of the session's pending changes [staged]: the new
    tables become visible as a whole, or the store refuses them. *)
Definition db_commit (staged : Tables) : M unit :=
  λ w, if storage_ok w then
         if bool_decide (constraints staged)
         then (Ok tt, emit Commit (with_tables staged w))
         else (Raise IntegrityError, emit (CommitFailed IntegrityError) w)
       else (Raise OperationalError, emit (CommitFailed OperationalError) w).

(** [await db.rollback()]: the pending changes are dropped. *)
Definition db_rollback : M unit := λ w, (Ok tt, emit Rollback w).

(** [await redis_client.delete(key)]. *)
Definition redis_delete (key : string) : M unit :=
  λ w, (Ok tt, emit (RedisDelete key) (with_redis (delete key (redis w)) w)).

(** A call to an external service: it answers or raises, and it touches
    neither the store nor the cache. *)
Definition external {A} (answer : Res A) : M A := λ w, (answer, w).

(** [messages.get_message(key)]: the catalogue is not part of the sources;
    a message is represented by its key. *)
Definition get_message (key : string) : string := key.

(** ** The session's unit of work *)

(** The row an ORM object stands for: the first row equal to it. *)
Fixpoint update_row (row : User) (f : User → User) (l : list User) : list User :=
  match l with
  | [] => []
  | x :: l' => if decide (x = row) then f x :: l' else x :: update_row row f l'
  end.

(** Attribute assignment on a loaded [User]: the pending tables. *)
Definition db_setattr (row : User) (f : User → User) : M Tables :=
  λ w, (Ok (mkTables (update_row row f (users (tables w)))
                     (invalid_tokens (tables w)) (ratings (tables w))), w).

(** The primary key the store gives to the next [users] row. *)
Definition next_id (l : list User) : Z :=
  1 + foldr (λ u m, Z.max (id u) m) 0 l.

Definition with_id (i : Z) (u : User) : User :=
  mkUser i (email u) (username u) (password u) (roles u) (is_active u)
         (confirmed u) (avatar u) (refresh_token u).

(** [db.add(new_user)]: the pending tables, with the row the flush will
    write. *)
Definition db_add_user (new_user : User) : M (User * Tables) :=
  λ w, let row := with_id (next_id (users (tables w))) new_user in
       (Ok (row, mkTables (users (tables w) ++ [row])
                          (invalid_tokens (tables w)) (ratings (tables w))), w).

(** [db.add(invalid_token)]. *)
Definition db_add_invalid_token (invalid_token : InvalidToken) : M Tables :=
  λ w, (Ok (mkTables (users (tables w))
                     (invalid_tokens (tables w) ++ [invalid_token])
                     (ratings (tables w))), w).

(** [await db.delete(rating)]: the first row equal to it leaves the table. *)
Fixpoint delete_row (row : Rating) (l : list Rating) : list Rating :=
  match l with
  | [] => []
  | x :: l' => if decide (x = row) then l' else x :: delete_row row l'
  end.

Definition db_delete_rating (row : Rating) : M Tables :=
  λ w, (Ok (mkTables (users (tables w)) (invalid_tokens (tables w))
                     (delete_row row (ratings (tables w)))), w).

(** [await db.refresh(obj)]: the object is reloaded from the row that was
    just committed, which is the object itself. *)
Definition db_refresh {A} (obj : A) : M A := ret obj.

(** ** [src/repository/users.py] *)

Module repository_users.

Definition get_user_by_email (email0 : string) : M (option User) :=
  let* result :=
    db_execute (λ t, filter (λ u, email u = email0) (users t)) in
  let user := head result in
  ret user.

(** Modelled from the spec: the constructor of [User], declared in
    [src/database/models.py]: "role defaults to user".  [create_user] calls
    it on the fields of [body], on [avatar] and, for the first account, on
    [roles]; a new account is active, not yet confirmed and without refresh
    token, and its primary key is given at the flush. *)
Definition User_new (body : UserModel) (avatar0 : string)
    (roles0 : option Role.t) : User :=
  mkUser 0 (body_email body) (body_username body) (body_password body)
         (default Role.user roles0) true false avatar0 None.

Section Registration.
(** [Gravatar(email).get_image()], an external service. *)
Variable gravatar_get_image : string → string.

Definition create_user (body : UserModel) : M User :=
  let avatar0 := gravatar_get_image (body_email body) in
  let* existing_user := db_execute (λ t, take 1 (users t)) in
  let existing_user := head existing_user in
  let new_user :=
    match existing_user with
    | None => User_new body avatar0 (Some Role.admin)
    | Some _ => User_new body avatar0 None
    end in
  let* added := db_add_user new_user in
  run db_commit added.2 in
  let* new_user := db_refresh added.1 in
  ret new_user.
End Registration.

Definition update_token (user : User) (refresh_token0 : option string)
  : M unit :=
  if opt_str_truthy refresh_token0 then
    let* staged := db_setattr user (set_refresh_token refresh_token0) in
    run db_commit staged in
    ret tt
  else ret tt.

Definition confirmed_email (email0 : string) : M unit :=
  let* user := get_user_by_email email0 in
  match user with
  | Some user =>
      let* staged := db_setattr user (set_confirmed true) in
      run db_commit staged in
      ret tt
  | None => ret tt
  end.

Section Cloudinary.
(** The uploaded file as the request carries it, and what the upload
    answers. *)
Context {UploadFile UploadResult : Type}.

(** [cloudinary.uploader.upload(file.file, public_id=..., overwrite=True)],
    an external service: the answer [r], or the exception of the upload. *)
Variable cloudinary_uploader_upload : UploadFile → string → Res UploadResult.

(** [cloudinary.CloudinaryImage(public_id).build_url(width=250, height=250,
    crop="fill", version=r.get("version"))]. *)
Variable build_url : string → UploadResult → string.

Definition edit_my_profile (email0 : string) (file : UploadFile)
    (name : string) : M (option User) :=
  let* user := get_user_by_email email0 in
  match user with
  | Some user =>
      let renamed :=
        if str_truthy name then set_username name user else user in
      let* r :=
        external (cloudinary_uploader_upload file
                    ("avatar/" +:+ username renamed)) in
      let src_url := build_url ("avatar/" +:+ username renamed) r in
      let* staged := db_setattr user (λ _, set_avatar src_url renamed) in
      let user := set_avatar src_url renamed in
      try_except
        (run db_commit staged in
         let* user := db_refresh user in
         ret (Some user))
        (λ e, run db_rollback in raise e)
  | None => ret None
  end.
End Cloudinary.

Definition change_password (user : User) (password0 : string) : M User :=
  let* staged := db_setattr user (set_password password0) in
  let user := set_password password0 user in
  try_except
    (run db_commit staged in
     ret user)
    (λ e, run db_rollback in raise e).

Definition get_user_username (username0 : string) : M (option User) :=
  try_except
    (let* result :=
       db_execute (λ t, filter (λ u, username u = username0) (users t)) in
     let* user := scalar_one_or_none result in
     ret user)
    (λ e, match e with
          | NoResultFound => ret None
          | _ => raise e
          end).


Definition ban_user (email0 : string) : M (option User) :=
  let* user := get_user_by_email email0 in
  match user with
  | Some user =>
      let* staged := db_setattr user (set_is_active false) in
      let user := set_is_active false user in
      try_except
        (run db_commit staged in
         let* user := db_refresh user in
         ret (Some user))
        (λ e, run db_rollback in raise e)
  | None => ret None
  end.

Definition activate_user (email0 : string) : M (option User) :=
  let* user := get_user_by_email email0 in
  match user with
  | Some user =>
      let* staged := db_setattr user (set_is_active true) in
      let user := set_is_active true user in
      try_except
        (run db_commit staged in
         let* user := db_refresh user in
         ret (Some user))
        (λ e, run db_rollback in raise e)
  | None => ret None
  end.

(** [repository_users.change_role], as [manage_user] writes it.  The module
    [src/repository/users.py] defines no such function: the lookup of the
    attribute on the module raises [AttributeError], before an argument is
    evaluated and before anything is called. *)
Definition change_role (email0 : string) (role : Role.t) : M (option User) :=
  raise AttributeError.

Definition invalidate_token (token0 : string) : M unit :=
  let invalid_token := mkInvalidToken token0 in
  try_except
    (let* staged := db_add_invalid_token invalid_token in
     run db_commit staged in
     let* _ := db_refresh invalid_token in
     ret tt)
    (λ e, run db_rollback in raise e).

Definition is_validate_token (token0 : string) : M bool :=
  let* result :=
    db_execute (λ t, filter (λ r, token r = token0) (invalid_tokens t)) in
  let* invalid_token := scalar_one_or_none result in
  match invalid_token with
  | Some _ => ret true
  | None => ret false
  end.

End repository_users.

(** ** [src/routes/users.py] *)

Module routes_users.

(** The body of a [UserResponse]. *)
Record Response := mkResponse {
  user : option User;
  detail : string
}.

Section Cloudinary.
Context {UploadFile UploadResult : Type}.
Variable cloudinary_uploader_upload : UploadFile → string → Res UploadResult.
Variable build_url : string → UploadResult → string.

Definition edit_my_profile (name : string) (file : UploadFile)
    (current_user : User) : M Response :=
  let* user_exist := repository_users.get_user_username name in
  match user_exist with
  | Some _ =>
      raise (HTTPException 400
               (get_message "USER_WITH_THIS_NAME_ALREADY_EXISTS"))
  | None =>
      let* user :=
        repository_users.edit_my_profile cloudinary_uploader_upload build_url
          (email current_user) file name in
      ret (mkResponse user
             (get_message "MY_PROFILE_WAS_SUCCESSFULLY_EDITED"))
  end.
End Cloudinary.

(** [role_param] is the [role] query parameter as the request carries it,
    [None] when the request leaves it out; the signature's
    [role: Role = Role.user] then binds the default. *)
Definition manage_user (username0 : string) (action : Action.t)
    (role_param : option Role.t) (current_user : User) : M Response :=
  let role : option Role.t := Some (default Role.user role_param) in
  let* user_action := repository_users.get_user_username username0 in
  match user_action with
  | None => raise (HTTPException 404 (get_message "USER_NOT_FOUND"))
  | Some user_action =>
    let key_to_clear := "user:" +:+ email user_action in
    run redis_delete key_to_clear in
    if bool_decide (username user_action = username current_user) then
      ret (mkResponse (Some user_action) (get_message "YOU_CANT_BAN_YOURSELF"))
    else if Action.eqb action Action.ban then
      if Role.eqb (roles current_user) (py_or Role.admin Role.moderator) then
        if is_active user_action then
          if bool_decide (username user_action = username current_user) then
            ret (mkResponse (Some user_action)
                   (get_message "YOU_CANT_BAN_YOURSELF"))
          else
            let* user := repository_users.ban_user (email user_action) in
            ret (mkResponse user
                   (username user_action +:+ " "
                      +:+ get_message "USER_HAS_BEEN_BANNED"))
        else
          raise (HTTPException 400 (get_message "USER_HAS_ALREADY_BANNED"))
      else
        raise (HTTPException 401
                 (get_message "YOU_DONT_HAVE_PERMISSION_TO_BAN_USERS"))
    else if Action.eqb action Action.activate then
      if Role.eqb (roles current_user) Role.admin then
        if negb (is_active user_action) then
          let* user := repository_users.activate_user (email user_action) in
          ret (mkResponse user
                 (username user_action +:+ " "
                    +:+ get_message "USER_HAS_BEEN_ACTIVATED"))
        else
          raise (HTTPException 400 (get_message "USER_ALREADY_ACTIVATED"))
      else
        raise (HTTPException 401
                 (get_message "YOU_DONT_HAVE_PERMISSION_FOR_ACTIVATE_USERS"))
    else if Action.eqb action Action.change_role then
      if Role.eqb (roles current_user) Role.admin then
        match role with
        | None =>
            raise (HTTPException 400
                     (get_message "NEW_ROLE_MUST_BE_SPECIFIED_FOR_CHANGING_ROLE"))
        | Some role =>
            let* user :=
              repository_users.change_role (email user_action) role in
            ret (mkResponse user
                   (get_message "USERS_ROLE_HAS_BEEN_CHANGED_TO" +:+ " "
                      +:+ Role.str role))
        end
      else
        raise (HTTPException 401
                 (get_message "YOU_DONT_HAVE_PERMISSION_FOR_CHANGE_USER_ROLES"))
    else
      raise (HTTPException 400 (get_message "INVALID_ACTION_SPECIFIED"))
  end.

End routes_users.

(** ** Ratings *)

(** The body of an [AverageRatingResponse].  The mean is kept as an exact
    fraction; the rounding of the floating-point division is not modelled. *)
Record AverageRating := mkAverageRating {
  average : option Q;
  count : Z
}.

Module repository_rating.

(** Modelled from the spec: [picture_ratings] of [src/repository/rating.py],
    which is not part of the sources.  "Computes arithmetic mean of all
    Rating.value for the picture; returns count = 0, average =
    null/undefined-sentinel when no ratings exist."  The result is the
    object the route tests for truth, or [None]. *)
Definition picture_ratings (picture_id : Z) : M (option AverageRating) :=
  let* rows :=
    db_execute (λ t, filter (λ r, rating_picture_id r = picture_id)
                            (ratings t)) in
  let n := length rows in
  let total := foldr (λ r acc, rating r + acc) 0 rows in
  match n with
  | O => ret (Some (mkAverageRating None 0))
  | S _ =>
      ret (Some (mkAverageRating (Some (Qmake total (Pos.of_nat n)))
                                 (Z.of_nat n)))
  end.

(** Modelled from the spec: [remove_rating] of [src/repository/rating.py],
    which is not part of the sources.  "Deletes the Rating for that pair;
    fails with NotFound if none exists."  The failure is the typed result of
    kind [NotFound], an [HTTPException] with status 404; the answer on
    success is the deleted row, which the route tests for truth. *)
Definition remove_rating (picture_id user_id : Z) : M (option Rating) :=
  let* rows :=
    db_execute (λ t, filter (λ r, rating_picture_id r = picture_id
                                  ∧ rating_user_id r = user_id)
                            (ratings t)) in
  match head rows with
  | None => raise (HTTPException 404 "Rating not found")
  | Some row =>
      let* staged := db_delete_rating row in
      run db_commit staged in
      ret (Some row)
  end.

End repository_rating.

(** ** [src/routes/rating.py] *)

Module routes_rating.

(** The body of a [RatingResponse]. *)
Record RatingResponse (R : Type) := mkRatingResponse {
  rating_picture : R;
  rating_detail : string
}.
Arguments mkRatingResponse {R} _ _.
Arguments rating_picture {R} _.
Arguments rating_detail {R} _.

Section Repository.
(** [repository_rating.create_picture_rating], which is not part of the
    sources: any procedure over the store, answering with some row type. *)
Context {R : Type}.
Variable repository_create_picture_rating : Z → Z → User → M R.

Definition create_picture_rating (picture_id rating0 : Z)
    (current_user : User) : M (RatingResponse R) :=
  if negb (bool_decide (1 ≤ rating0 ≤ 5)%Z) then
    raise (HTTPException 400 "Rating must be between 1 and 5")
  else
    let* rating_picture0 :=
      repository_create_picture_rating picture_id rating0 current_user in
    ret (mkRatingResponse rating_picture0 "Rating successfully added").
End Repository.

Definition picture_ratings (picture_id : Z) : M AverageRating :=
  let* picture := repository_rating.picture_ratings picture_id in
  match picture with
  | None => raise (HTTPException 404 "Picture not found!")
  | Some picture => ret picture
  end.

Definition remove_photo_rating (picture_id user_id : Z) : M Rating :=
  let* deleted_rating :=
    repository_rating.remove_rating picture_id user_id in
  match deleted_rating with
  | None => raise (HTTPException 400 "Unable to delete rating")
  | Some deleted_rating => ret deleted_rating
  end.

End routes_rating.

(** ** The error kinds of the specification

    The specification names kinds of typed results; a handler reports one by
    raising an [HTTPException] with the matching status.  An exception of the
    store that leaves a handler is not a typed result. *)

Inductive ErrorKind := NotFound | Forbidden | Conflict | BadRequest.

Definition kind_of (e : Exn) : option ErrorKind :=
  match e with
  | HTTPException 404 _ => Some NotFound
  | HTTPException 401 _ => Some Forbidden
  | HTTPException 403 _ => Some Forbidden
  | HTTPException 409 _ => Some Conflict
  | HTTPException 400 _ => Some BadRequest
  | _ => None
  end.

(** * Vocabulary of the properties *)

(** ** Requests and their effects *)

(** The rows a moderation request names: [username0] selects [target]. *)
Definition target_of (username0 : string) (w : World) (target : User) : Prop :=
  filter (λ u, username u = username0) (users (tables w)) = [target].

(** What the invalidation of [key] leaves behind: the cache entry is gone
    and the log says so, nothing else. *)
Definition invalidated (key : string) (w : World) : World :=
  emit (RedisDelete key) (with_redis (delete key (redis w)) w).

(** No cache invalidation among the events [l]. *)
Definition no_invalidation (l : list Event) : Prop :=
  ∀ key, RedisDelete key ∉ l.

(** The request [out] has deleted the cache entry [key] as its first effect
    on the world [w], and has invalidated nothing after that. *)
Definition invalidated_first {A} (key : string) (w : World)
    (out : Res A * World) : Prop :=
  ∃ rest,
    log out.2 = log w ++ RedisDelete key :: rest
    ∧ no_invalidation rest
    ∧ redis out.2 = delete key (redis w).

(** ** Pending tables *)

(** The tables an assignment [f] to [row] asks the store to commit. *)
Definition staged_assignment (f : User → User) (row : User) (w : World) : Tables :=
  mkTables (update_row row f (users (tables w)))
           (invalid_tokens (tables w)) (ratings (tables w)).

(** [ban_user] and [activate_user] are one procedure, up to the value they
    assign: what it does in each case of the lookup and of the commit. *)
Definition assignment_outcome (f : User → User) (email0 : string) (w : World)
  : Res (option User) * World :=
  match head (filter (λ u, email u = email0) (users (tables w))) with
  | None => (Ok None, w)
  | Some row =>
      if storage_ok w then
        if bool_decide (constraints (staged_assignment f row w))
        then (Ok (Some (f row)),
              emit Commit (with_tables (staged_assignment f row w) w))
        else (Raise IntegrityError,
              emit Rollback (emit (CommitFailed IntegrityError) w))
      else (Raise OperationalError,
            emit Rollback (emit (CommitFailed OperationalError) w))
  end.

(** The tables a revocation of [token0] asks the store to commit. *)
Definition staged_token (token0 : string) (w : World) : Tables :=
  mkTables (users (tables w))
           (invalid_tokens (tables w) ++ [mkInvalidToken token0])
           (ratings (tables w)).

(** The store after the revocations of [tokens], in this order, each one
    committed or refused. *)
Definition revoke_all (tokens : list string) (w : World) : World :=
  foldl (λ w token0, (repository_users.invalidate_token token0 w).2) w tokens.

(** The row [create_user] adds: the first account is an admin, every later
    one gets the default role. *)
Definition new_row (gravatar_get_image : string → string) (body : UserModel)
    (w : World) : User :=
  with_id (next_id (users (tables w)))
    (repository_users.User_new body (gravatar_get_image (body_email body))
       match users (tables w) with
       | [] => Some Role.admin
       | _ :: _ => None
       end).

(** The tables a registration asks the store to commit. *)
Definition staged_user (row : User) (w : World) : Tables :=
  mkTables (users (tables w) ++ [row])
           (invalid_tokens (tables w)) (ratings (tables w)).

(** ** Sample data *)

Definition alice : User :=
  mkUser 1 "alice@example.org" "alice" "h1" Role.admin true true "a1" None.

Definition mona : User :=
  mkUser 2 "mona@example.org" "mona" "h2" Role.moderator true true "a2" None.

Definition bob : User :=
  mkUser 3 "bob@example.org" "bob" "h3" Role.moderator true true "a3" None.

(** Three accounts, no revoked token, no rating, a cached profile of [bob]. *)
Definition world0 : World :=
  mkWorld (mkTables [alice; mona; bob] [] []) true
          {[ "user:bob@example.org" := "profile" ]} [].

Definition carol : UserModel := mkUserModel "carol" "carol@example.org" "h4".

(** An empty store that accepts commits. *)
Definition empty_world : World := mkWorld (mkTables [] [] []) true ∅ [].


(** [bob] after a ban. *)
Definition banned_bob : User := set_is_active false bob.

(** [world0] with [bob] banned. *)
Definition world1 : World :=
  mkWorld (mkTables [alice; mona; banned_bob] [] []) true (redis world0) [].

(** An upload service that answers with a version number, and the address
    it gives to a picture. *)
Definition sample_upload (file : list Z) (public_id : string) : Res Z :=
  Ok (Z.of_nat (length file)).

Definition sample_build_url (public_id : string) (r : Z) : string :=
  "https://res.example.org/" +:+ public_id.

(** An upload service that is down. *)
Definition failing_upload (file : list Z) (public_id : string) : Res Z :=
  Raise OperationalError.

(** The answer of a repository call, wrapped in the body of the response. *)
Definition respond (detail0 : string) (out : Res (option User) * World)
  : Res routes_users.Response * World :=
  match out with
  | (Ok u, w) => (Ok (routes_users.mkResponse u detail0), w)
  | (Raise e, w) => (Raise e, w)
  end.

(** What [edit_my_profile] assigns to the row: the new name, unless it is
    empty, and the address of the new avatar. *)
Definition edited_row {UploadResult : Type}
    (build_url : string → UploadResult → string) (name : string)
    (r : UploadResult) (row : User) : User :=
  let renamed := if str_truthy name then set_username name row else row in
  set_avatar (build_url ("avatar/" +:+ username renamed) r) renamed.

(** Membership of an event or a string in an explicit list of others. *)
Ltac absurd_membership H :=
  rewrite ?elem_of_cons, ?elem_of_nil in H; intuition discriminate.

(** * Properties *)

(** ** Reading the tables *)

Lemma target_of_username username0 w target :
  target_of username0 w target → username target = username0.
Proof.
  unfold target_of. intros Hsel.
  assert (Hin : target ∈ filter (λ u, username u = username0) (users (tables w))).
  { rewrite Hsel. apply list_elem_of_singleton. reflexivity. }
  apply list_elem_of_filter in Hin. tauto.
Qed.

Lemma get_user_username_eq username0 w :
  repository_users.get_user_username username0 w =
  match filter (λ u, username u = username0) (users (tables w)) with
  | [] => (Ok None, w)
  | [u] => (Ok (Some u), w)
  | _ => (Raise MultipleResultsFound, w)
  end.
Proof.
  unfold repository_users.get_user_username, try_except, bind, db_execute.
  destruct (filter _ _) as [|u [|u' rows]]; reflexivity.
Qed.

Lemma get_user_by_email_eq email0 w :
  repository_users.get_user_by_email email0 w =
  (Ok (head (filter (λ u, email u = email0) (users (tables w)))), w).
Proof. reflexivity. Qed.

(** ** The self-action guard *)

Lemma manage_user_self username0 action role_param current_user target w :
  target_of username0 w target →
  username0 = username current_user →
  routes_users.manage_user username0 action role_param current_user w =
  (Ok (routes_users.mkResponse (Some target)
         (get_message "YOU_CANT_BAN_YOURSELF")),
   invalidated ("user:" +:+ email target) w).
Proof.
  intros Hsel Hself.
  pose proof (target_of_username _ _ _ Hsel) as Hname.
  unfold routes_users.manage_user, bind.
  rewrite get_user_username_eq. rewrite Hsel. cbn [redis_delete].
  rewrite bool_decide_eq_true_2 by congruence.
  reflexivity.
Qed.

(** C7: a ban request whose target is the acting user returns the no-op
    response with the target as it was found and leaves the tables of the
    store as they were, whatever the role of the actor, the state of the
    target and the [role] parameter are: the guard comes before every role
    and state check. *)
Theorem ban_self_is_noop current_user role_param target w :
  target_of (username current_user) w target →
  let out := routes_users.manage_user (username current_user) Action.ban
               role_param current_user w in
  out.1 = Ok (routes_users.mkResponse (Some target)
                (get_message "YOU_CANT_BAN_YOURSELF"))
  ∧ tables out.2 = tables w
  ∧ log out.2 = log w ++ [RedisDelete ("user:" +:+ email target)].
Proof.
  intros Hsel out. subst out.
  rewrite (manage_user_self _ _ _ _ target) by done.
  repeat split.
Qed.

Lemma ban_self_is_noop_witness :
  target_of (username mona) world0 mona
  ∧ let out := routes_users.manage_user (username mona) Action.ban None
                 mona world0 in
    out.1 = Ok (routes_users.mkResponse (Some mona)
                  (get_message "YOU_CANT_BAN_YOURSELF"))
    ∧ tables out.2 = tables world0
    ∧ log out.2 = log world0 ++ [RedisDelete ("user:" +:+ email mona)].
Proof.
  split.
  - vm_compute. reflexivity.
  - apply (ban_self_is_noop mona None mona world0). vm_compute. reflexivity.
Defined.

(** C10: the self-action guard covers every action.  For [ban], [activate]
    and [change_role] alike, a request whose target carries the username of
    the acting user returns the no-op response before any role or state
    precondition is looked at, and no row of the store changes. *)
Theorem self_guard_covers_every_action action current_user role_param target w :
  target_of (username current_user) w target →
  routes_users.manage_user (username current_user) action role_param
    current_user w
  = (Ok (routes_users.mkResponse (Some target)
           (get_message "YOU_CANT_BAN_YOURSELF")),
     invalidated ("user:" +:+ email target) w)
  ∧ tables (invalidated ("user:" +:+ email target) w) = tables w
  ∧ Commit ∉ drop (length (log w))
               (log (invalidated ("user:" +:+ email target) w)).
Proof.
  intros Hsel. split; [| split].
  - by apply manage_user_self.
  - reflexivity.
  - cbn [invalidated emit with_redis log].
    rewrite drop_app_length. intros Hin.
    apply list_elem_of_singleton in Hin. discriminate.
Qed.

Lemma self_guard_covers_every_action_witness :
  target_of (username alice) world0 alice
  ∧ routes_users.manage_user (username alice) Action.change_role
      (Some Role.user) alice world0
    = (Ok (routes_users.mkResponse (Some alice)
             (get_message "YOU_CANT_BAN_YOURSELF")),
       invalidated ("user:" +:+ email alice) world0)
  ∧ tables (invalidated ("user:" +:+ email alice) world0) = tables world0
  ∧ Commit ∉ drop (length (log world0))
               (log (invalidated ("user:" +:+ email alice) world0)).
Proof.
  split.
  - vm_compute. reflexivity.
  - apply (self_guard_covers_every_action Action.change_role alice
             (Some Role.user) alice world0).
    vm_compute. reflexivity.
Defined.

(** ** Assignments to a user row *)

Lemma ban_user_eq email0 w :
  repository_users.ban_user email0 w
  = assignment_outcome (set_is_active false) email0 w.
Proof.
  unfold repository_users.ban_user, assignment_outcome, bind.
  rewrite get_user_by_email_eq.
  destruct (head _) as [row|]; [|reflexivity].
  unfold try_except, bind, db_setattr, db_commit. fold (staged_assignment (set_is_active false) row w).
  destruct (storage_ok w); [|reflexivity].
  destruct (bool_decide _); reflexivity.
Qed.

Lemma activate_user_eq email0 w :
  repository_users.activate_user email0 w
  = assignment_outcome (set_is_active true) email0 w.
Proof.
  unfold repository_users.activate_user, assignment_outcome, bind.
  rewrite get_user_by_email_eq.
  destruct (head _) as [row|]; [|reflexivity].
  unfold try_except, bind, db_setattr, db_commit. fold (staged_assignment (set_is_active true) row w).
  destruct (storage_ok w); [|reflexivity].
  destruct (bool_decide _); reflexivity.
Qed.

Lemma change_role_eq email0 role w :
  repository_users.change_role email0 role w = (Raise AttributeError, w).
Proof. reflexivity. Qed.

(** ** The order of the effects *)

(** An assignment only talks to the store: it appends commit and rollback
    events, and it does not touch the cache. *)
Lemma assignment_outcome_effects f email0 w :
  ∃ rest, log (assignment_outcome f email0 w).2 = log w ++ rest
          ∧ no_invalidation rest
          ∧ redis (assignment_outcome f email0 w).2 = redis w.
Proof.
  unfold assignment_outcome.
  destruct (head _) as [row|].
  - destruct (storage_ok w).
    + destruct (bool_decide _).
      * exists [Commit]. repeat split. intros key Hin.
        apply list_elem_of_singleton in Hin. discriminate.
      * exists [CommitFailed IntegrityError; Rollback]. cbn.
        rewrite <- app_assoc. repeat split. intros key Hin.
        absurd_membership Hin.
    + exists [CommitFailed OperationalError; Rollback]. cbn.
      rewrite <- app_assoc. repeat split. intros key Hin.
      absurd_membership Hin.
  - exists []. rewrite app_nil_r. repeat split. intros key Hin.
    by apply not_elem_of_nil in Hin.
Qed.

Lemma manage_user_not_found username0 action role_param current_user w :
  filter (λ u, username u = username0) (users (tables w)) = [] →
  routes_users.manage_user username0 action role_param current_user w
  = (Raise (HTTPException 404 (get_message "USER_NOT_FOUND")), w).
Proof.
  intros Hnone. unfold routes_users.manage_user, bind.
  rewrite get_user_username_eq, Hnone. reflexivity.
Qed.

Lemma invalidated_first_stop {A} key w (r : Res A) :
  invalidated_first key w (r, invalidated key w).
Proof.
  exists []. repeat split. intros k Hin. absurd_membership Hin.
Qed.

(** The response built from the row an assignment returns adds no effect. *)
Lemma invalidated_first_assignment key w f email0 (c : M (option User))
    (k : option User → routes_users.Response) :
  (∀ w', c w' = assignment_outcome f email0 w') →
  invalidated_first key w (bind c (λ u, ret (k u)) (invalidated key w)).
Proof.
  intros Hc.
  destruct (assignment_outcome_effects f email0 (invalidated key w))
    as (rest & Hlog & Hno & Hredis).
  exists rest. unfold bind, ret. rewrite Hc.
  destruct (assignment_outcome f email0 (invalidated key w)) as [[u|e] w'];
    cbn [snd] in *; rewrite Hlog, Hredis;
    cbn [invalidated emit with_redis log redis];
    rewrite <- app_assoc; repeat split; exact Hno.
Qed.

(** C2, as the code has it: whenever the target of a moderation request
    exists, the cache entry [user:<email of the target>] is deleted exactly
    once, as the first effect of the request, before the self-action guard,
    before every role and state check and before any commit or rollback;
    whatever the branch taken afterwards, no other invalidation follows.
    ([manage_user_not_found] is the remaining case: without a target the
    request ends in 404 with no effect at all.) *)
Theorem invalidation_comes_first username0 action role_param current_user w
    target :
  target_of username0 w target →
  invalidated_first ("user:" +:+ email target) w
    (routes_users.manage_user username0 action role_param current_user w).
Proof.
  intros Hsel.
  set (key := "user:" +:+ email target).
  unfold routes_users.manage_user, bind at 1.
  rewrite get_user_username_eq, Hsel.
  unfold bind at 1. cbn [redis_delete]. fold key. fold (invalidated key w).
  destruct (bool_decide (username target = username current_user));
    [apply invalidated_first_stop|].
  destruct (Action.eqb action Action.ban).
  { destruct (Role.eqb _ _); [|apply invalidated_first_stop].
    destruct (is_active target); [|apply invalidated_first_stop].
    apply invalidated_first_assignment with (f := set_is_active false)
                                            (email0 := email target).
    apply ban_user_eq. }
  destruct (Action.eqb action Action.activate).
  { destruct (Role.eqb _ _); [|apply invalidated_first_stop].
    destruct (negb (is_active target)); [|apply invalidated_first_stop].
    apply invalidated_first_assignment with (f := set_is_active true)
                                            (email0 := email target).
    apply activate_user_eq. }
  destruct (Action.eqb action Action.change_role);
    [|apply invalidated_first_stop].
  destruct (Role.eqb _ _); [|apply invalidated_first_stop].
  unfold bind. rewrite change_role_eq. apply invalidated_first_stop.
Qed.

Lemma invalidation_comes_first_witness :
  target_of "bob" world0 bob
  ∧ invalidated_first ("user:" +:+ email bob) world0
      (routes_users.manage_user "bob" Action.activate None mona world0).
Proof.
  split.
  - vm_compute. reflexivity.
  - apply (invalidation_comes_first "bob" Action.activate None mona world0 bob).
    vm_compute. reflexivity.
Defined.

(** C2, as stated, fails: on the branch that ends in the refusal of the
    actor (a moderator asks for [activate]), on the branch that ends in the
    state conflict (an admin asks to activate an active account) and on the
    self-action branch, the cache entry of the target is deleted although
    nothing is committed. *)
Lemma invalidation_without_commit :
  let refused :=
    routes_users.manage_user "bob" Action.activate None mona world0 in
  let conflict :=
    routes_users.manage_user "bob" Action.activate None alice world0 in
  let noop :=
    routes_users.manage_user "mona" Action.ban None mona world0 in
  (refused.1
   = Raise (HTTPException 401 "YOU_DONT_HAVE_PERMISSION_FOR_ACTIVATE_USERS")
   ∧ log refused.2 = [RedisDelete "user:bob@example.org"]
   ∧ redis world0 !! "user:bob@example.org" = Some "profile"
   ∧ redis refused.2 !! "user:bob@example.org" = None
   ∧ tables refused.2 = tables world0)
  ∧ (conflict.1 = Raise (HTTPException 400 "USER_ALREADY_ACTIVATED")
     ∧ log conflict.2 = [RedisDelete "user:bob@example.org"]
     ∧ tables conflict.2 = tables world0)
  ∧ (noop.1 = Ok (routes_users.mkResponse (Some mona) "YOU_CANT_BAN_YOURSELF")
     ∧ log noop.2 = [RedisDelete "user:mona@example.org"]
     ∧ tables noop.2 = tables world0).
Proof. vm_compute. repeat split. Qed.

(** ** Unique columns *)

Section unique_keys.
Context {A K : Type} `{EqDecision K} (key : A → K).

Lemma filter_key_absent (l : list A) (k : K) :
  k ∉ key <$> l → filter (λ y, key y = k) l = [].
Proof.
  induction l as [|a l IH]; [done|].
  rewrite fmap_cons, not_elem_of_cons. intros [Hne Hnin].
  rewrite filter_cons_False by congruence. auto.
Qed.

Lemma filter_key_unique (l : list A) (x : A) :
  NoDup (key <$> l) → x ∈ l → filter (λ y, key y = key x) l = [x].
Proof.
  induction l as [|a l IH]; intros Hnd Hin.
  - by apply elem_of_nil in Hin.
  - rewrite fmap_cons in Hnd. apply NoDup_cons in Hnd as [Hfresh Hnd].
    apply elem_of_cons in Hin as [->|Hin].
    + rewrite filter_cons_True by done.
      by rewrite filter_key_absent.
    + rewrite filter_cons_False; [by apply IH|].
      intros Heq. apply Hfresh. rewrite Heq.
      by apply list_elem_of_fmap_2.
Qed.

Lemma filter_key_duplicate (l : list A) (x : A) :
  x ∈ l → ¬ NoDup (key <$> (l ++ [x])).
Proof.
  intros Hin Hnd. rewrite fmap_app in Hnd.
  apply NoDup_app in Hnd as (_ & Hdisj & _).
  apply (Hdisj (key x)); [by apply list_elem_of_fmap_2|].
  apply list_elem_of_singleton. reflexivity.
Qed.
End unique_keys.

(** An assignment that keeps the email and the username of the row keeps
    the unique columns of the table. *)
Lemma update_row_column {K} (col : User → K) (f : User → User) row l :
  (∀ u, col (f u) = col u) →
  col <$> update_row row f l = col <$> l.
Proof.
  intros Hcol. induction l as [|x l IH]; [done|].
  cbn [update_row]. destruct (decide (x = row)).
  - by rewrite !fmap_cons, Hcol.
  - by rewrite !fmap_cons, IH.
Qed.

Lemma staged_assignment_constraints f row w :
  (∀ u, email (f u) = email u) →
  (∀ u, username (f u) = username u) →
  constraints (tables w) →
  constraints (staged_assignment f row w).
Proof.
  intros Hemail Hname (He & Hu & Ht & Hr).
  unfold constraints, staged_assignment; cbn [users invalid_tokens ratings].
  by rewrite !update_row_column.
Qed.

(** The row a request selects by username is the row its email selects. *)
Lemma target_by_email username0 w target :
  constraints (tables w) →
  target_of username0 w target →
  head (filter (λ u, email u = email target) (users (tables w))) = Some target.
Proof.
  intros (He & _ & _) Hsel.
  assert (Hin : target ∈ users (tables w)).
  { assert (Hin : target ∈ filter (λ u, username u = username0)
                             (users (tables w))).
    { unfold target_of in Hsel. rewrite Hsel.
      apply list_elem_of_singleton. reflexivity. }
    apply list_elem_of_filter in Hin. tauto. }
  by rewrite (filter_key_unique email).
Qed.

(** ** Who may ban *)

(** The operand of the comparison in the [ban] branch. *)
Lemma admin_or_moderator : py_or Role.admin Role.moderator = Role.admin.
Proof. reflexivity. Qed.

(** The [ban] branch lets an admin through: the target is banned in the
    store and in the response. *)
Lemma ban_by_admin username0 role_param current_user target w :
  constraints (tables w) →
  storage_ok w = true →
  target_of username0 w target →
  username0 ≠ username current_user →
  roles current_user = Role.admin →
  is_active target = true →
  routes_users.manage_user username0 Action.ban role_param current_user w
  = (Ok (routes_users.mkResponse (Some (set_is_active false target))
           (username target +:+ " " +:+ get_message "USER_HAS_BEEN_BANNED")),
     emit Commit
       (with_tables
          (staged_assignment (set_is_active false) target
             (invalidated ("user:" +:+ email target) w))
          (invalidated ("user:" +:+ email target) w))).
Proof.
  intros Hwf Hstore Hsel Hother Hrole Hactive.
  pose proof (target_of_username _ _ _ Hsel) as Hname.
  pose proof (target_by_email _ _ _ Hwf Hsel) as Hrow.
  unfold routes_users.manage_user, bind at 1.
  rewrite get_user_username_eq, Hsel.
  unfold bind at 1. cbn [redis_delete].
  fold (invalidated ("user:" +:+ email target) w).
  rewrite bool_decide_eq_false_2 by congruence.
  rewrite Hrole, Hactive.
  change (Action.eqb Action.ban Action.ban) with true.
  change (Role.eqb Role.admin (py_or Role.admin Role.moderator)) with true.
  cbv iota.
  unfold bind. rewrite ban_user_eq. unfold assignment_outcome.
  cbn [invalidated emit with_redis tables storage_ok].
  rewrite Hrow, Hstore.
  rewrite bool_decide_eq_true_2; [reflexivity|].
  by apply (staged_assignment_constraints (set_is_active false) target
              (invalidated ("user:" +:+ email target) w)).
Qed.

(** The [ban] branch refuses every other actor, a moderator included. *)
Lemma ban_by_others username0 role_param current_user target w :
  target_of username0 w target →
  username0 ≠ username current_user →
  roles current_user ≠ Role.admin →
  routes_users.manage_user username0 Action.ban role_param current_user w
  = (Raise (HTTPException 401
              (get_message "YOU_DONT_HAVE_PERMISSION_TO_BAN_USERS")),
     invalidated ("user:" +:+ email target) w).
Proof.
  intros Hsel Hother Hrole.
  pose proof (target_of_username _ _ _ Hsel) as Hname.
  unfold routes_users.manage_user, bind at 1.
  rewrite get_user_username_eq, Hsel.
  unfold bind at 1. cbn [redis_delete].
  rewrite bool_decide_eq_false_2 by congruence.
  change (Action.eqb Action.ban Action.ban) with true.
  rewrite admin_or_moderator. unfold Role.eqb.
  rewrite (bool_decide_eq_false_2 (roles current_user = Role.admin)) by done.
  reflexivity.
Qed.

(** C1 at the failing input: [mona] is a moderator, [bob] is an active
    account other than hers, and her ban request is refused with 401; [bob]
    stays active. *)
Theorem ban_by_moderator_is_refused :
  let out := routes_users.manage_user "bob" Action.ban None mona world0 in
  roles mona = Role.moderator
  ∧ target_of "bob" world0 bob
  ∧ is_active bob = true
  ∧ out.1 = Raise (HTTPException 401 "YOU_DONT_HAVE_PERMISSION_TO_BAN_USERS")
  ∧ users (tables out.2) = [alice; mona; bob].
Proof. vm_compute. repeat split. Qed.

(** ** The [role] parameter of [change_role] *)

(** A request without [role] is a request for [Role.user]. *)
Lemma role_omitted_is_user username0 action current_user :
  routes_users.manage_user username0 action None current_user
  = routes_users.manage_user username0 action (Some Role.user) current_user.
Proof. reflexivity. Qed.

Lemma assignment_outcome_raises f email0 w e :
  (assignment_outcome f email0 w).1 = Raise e →
  e = IntegrityError ∨ e = OperationalError.
Proof.
  unfold assignment_outcome.
  destruct (head _); [|discriminate].
  destruct (storage_ok w); [destruct (bool_decide _)|];
    cbn [fst]; intros [= <-]; auto.
Qed.

Lemma assignment_response_raises f email0 (c : M (option User))
    (k : option User → routes_users.Response) w e :
  (∀ w', c w' = assignment_outcome f email0 w') →
  (bind c (λ u, ret (k u)) w).1 = Raise e →
  e = IntegrityError ∨ e = OperationalError.
Proof.
  intros Hc. unfold bind, ret. rewrite Hc.
  pose proof (assignment_outcome_raises f email0 w) as Hraise.
  destruct (assignment_outcome f email0 w) as [[u|e'] w'];
    cbn [fst] in *; [discriminate|].
  intros [= <-]. by apply Hraise.
Qed.

(** The refusal that the [change_role] branch keeps for a missing role is
    given to no request. *)
Lemma role_is_never_missing username0 action role_param current_user w :
  (routes_users.manage_user username0 action role_param current_user w).1
  ≠ Raise (HTTPException 400
             (get_message "NEW_ROLE_MUST_BE_SPECIFIED_FOR_CHANGING_ROLE")).
Proof.
  unfold routes_users.manage_user, bind at 1.
  rewrite get_user_username_eq.
  destruct (filter _ _) as [|target [|other rows]]; [discriminate| |discriminate].
  unfold bind at 1. cbn [redis_delete].
  destruct (bool_decide (username target = username current_user));
    [discriminate|].
  destruct (Action.eqb action Action.ban).
  { destruct (Role.eqb _ _); [|discriminate].
    destruct (is_active target); [|discriminate].
    intros Hraise.
    apply (assignment_response_raises (set_is_active false) (email target))
      in Hraise as [?|?]; [discriminate|discriminate|apply ban_user_eq]. }
  destruct (Action.eqb action Action.activate).
  { destruct (Role.eqb _ _); [|discriminate].
    destruct (negb (is_active target)); [|discriminate].
    intros Hraise.
    apply (assignment_response_raises (set_is_active true) (email target))
      in Hraise as [?|?]; [discriminate|discriminate|apply activate_user_eq]. }
  destruct (Action.eqb action Action.change_role); [|discriminate].
  destruct (Role.eqb _ _); [|discriminate].
  unfold bind. rewrite change_role_eq. discriminate.
Qed.

(** What an admin gets for [change_role] on another account, with or
    without [role]: the cache entry of the target is deleted, the guard for
    a missing role is passed, and the call into the repository raises
    [AttributeError]; nothing is committed. *)
Lemma change_role_by_admin username0 role_param current_user target w :
  target_of username0 w target →
  username0 ≠ username current_user →
  roles current_user = Role.admin →
  routes_users.manage_user username0 Action.change_role role_param
    current_user w
  = (Raise AttributeError, invalidated ("user:" +:+ email target) w).
Proof.
  intros Hsel Hother Hrole.
  pose proof (target_of_username _ _ _ Hsel) as Hname.
  unfold routes_users.manage_user, bind at 1.
  rewrite get_user_username_eq, Hsel.
  unfold bind at 1. cbn [redis_delete].
  rewrite bool_decide_eq_false_2 by congruence.
  rewrite Hrole. reflexivity.
Qed.

(** C5 at the failing input: the admin [alice] asks for [change_role] on the
    moderator [bob] and leaves [role] out.  The request is not refused with
    400: [role] is bound to [Role.user], the guard for a missing role is
    passed, and the request ends in the [AttributeError] of the call into
    the repository, which is no typed result.  The cache entry of [bob] is
    deleted, nothing is committed and [bob] stays a moderator. *)
Theorem change_role_without_role_is_no_bad_request :
  let out :=
    routes_users.manage_user "bob" Action.change_role None alice world0 in
  roles alice = Role.admin
  ∧ roles bob = Role.moderator
  ∧ out.1 = Raise AttributeError
  ∧ kind_of AttributeError = None
  ∧ users (tables out.2) = [alice; mona; bob]
  ∧ log out.2 = [RedisDelete "user:bob@example.org"].
Proof. vm_compute. repeat split. Qed.

(** ** Ratings *)

(** C3: for a picture without ratings the average request is answered, not
    refused: the response has [count = 0] and no average, and the store is
    left as it was. *)
Theorem average_of_no_ratings picture_id w :
  filter (λ r, rating_picture_id r = picture_id) (ratings (tables w)) = [] →
  routes_rating.picture_ratings picture_id w
  = (Ok (mkAverageRating None 0), w).
Proof.
  intros Hnone.
  unfold routes_rating.picture_ratings, repository_rating.picture_ratings,
    bind, db_execute.
  rewrite Hnone. reflexivity.
Qed.

Lemma average_of_no_ratings_witness :
  filter (λ r, rating_picture_id r = 3) (ratings (tables world0)) = []
  ∧ routes_rating.picture_ratings 3 world0
    = (Ok (mkAverageRating None 0), world0).
Proof.
  split.
  - reflexivity.
  - apply (average_of_no_ratings 3 world0). reflexivity.
Defined.

(** The route refuses exactly the empty result of the repository. *)
Lemma picture_ratings_of_some_ratings picture_id w r rows :
  filter (λ r, rating_picture_id r = picture_id) (ratings (tables w))
  = r :: rows →
  ∃ mean, routes_rating.picture_ratings picture_id w
          = (Ok (mkAverageRating (Some mean) (Z.of_nat (S (length rows)))), w).
Proof.
  intros Hrows.
  unfold routes_rating.picture_ratings, repository_rating.picture_ratings,
    bind, db_execute.
  rewrite Hrows. eexists. reflexivity.
Qed.

(** C6: when no rating exists for the pair, the removal fails with a typed
    result of kind [NotFound]; the store, the cache and the log are left as
    they were, so nothing is deleted and nothing is committed. *)
Theorem remove_absent_rating_is_not_found picture_id user_id w :
  filter (λ r, rating_picture_id r = picture_id ∧ rating_user_id r = user_id)
         (ratings (tables w)) = [] →
  ∃ e, routes_rating.remove_photo_rating picture_id user_id w = (Raise e, w)
       ∧ kind_of e = Some NotFound.
Proof.
  intros Hnone. exists (HTTPException 404 "Rating not found").
  unfold routes_rating.remove_photo_rating, repository_rating.remove_rating,
    bind, db_execute.
  rewrite Hnone. split; reflexivity.
Qed.

Lemma remove_absent_rating_is_not_found_witness :
  filter (λ r, rating_picture_id r = 3 ∧ rating_user_id r = 7)
         (ratings (tables world0)) = []
  ∧ ∃ e, routes_rating.remove_photo_rating 3 7 world0 = (Raise e, world0)
         ∧ kind_of e = Some NotFound.
Proof.
  split.
  - reflexivity.
  - apply (remove_absent_rating_is_not_found 3 7 world0). reflexivity.
Defined.

(** ** The registry of revoked tokens *)

Lemma invalidate_token_eq token0 w :
  repository_users.invalidate_token token0 w =
  if storage_ok w then
    if bool_decide (constraints (staged_token token0 w))
    then (Ok tt, emit Commit (with_tables (staged_token token0 w) w))
    else (Raise IntegrityError,
          emit Rollback (emit (CommitFailed IntegrityError) w))
  else (Raise OperationalError,
        emit Rollback (emit (CommitFailed OperationalError) w)).
Proof.
  unfold repository_users.invalidate_token, try_except, bind,
    db_add_invalid_token, db_commit.
  fold (staged_token token0 w).
  destruct (storage_ok w); [|reflexivity].
  destruct (bool_decide _); reflexivity.
Qed.

Lemma is_validate_token_eq token0 w :
  repository_users.is_validate_token token0 w =
  match filter (λ r, token r = token0) (invalid_tokens (tables w)) with
  | [] => (Ok false, w)
  | [_] => (Ok true, w)
  | _ => (Raise MultipleResultsFound, w)
  end.
Proof.
  unfold repository_users.is_validate_token, bind, db_execute.
  destruct (filter _ _) as [|r [|r' rows]]; reflexivity.
Qed.

(** The membership query writes nothing, whatever it answers. *)
Lemma is_validate_token_reads_only token0 w :
  (repository_users.is_validate_token token0 w).2 = w.
Proof.
  rewrite is_validate_token_eq.
  destruct (filter _ _) as [|r [|r' rows]]; reflexivity.
Qed.

Lemma is_validate_token_absent token0 w :
  token0 ∉ token <$> invalid_tokens (tables w) →
  repository_users.is_validate_token token0 w = (Ok false, w).
Proof.
  intros Habsent. rewrite is_validate_token_eq.
  by rewrite (filter_key_absent token).
Qed.

(** A revocation of another token keeps [token0] out of the registry,
    whether it succeeds or fails. *)
Lemma invalidate_token_keeps_absent token0 token1 w :
  token0 ≠ token1 →
  token0 ∉ token <$> invalid_tokens (tables w) →
  token0 ∉ token <$>
    invalid_tokens (tables (repository_users.invalidate_token token1 w).2).
Proof.
  intros Hne Habsent. rewrite invalidate_token_eq.
  destruct (storage_ok w); [destruct (bool_decide _)|]; cbn; try done.
  rewrite fmap_app, elem_of_app. intros [Hin|Hin]; [done|].
  apply list_elem_of_singleton in Hin. done.
Qed.

Lemma revoke_all_keeps_absent token0 tokens w :
  token0 ∉ tokens →
  token0 ∉ token <$> invalid_tokens (tables w) →
  token0 ∉ token <$> invalid_tokens (tables (revoke_all tokens w)).
Proof.
  revert w. induction tokens as [|token1 tokens IH]; intros w Hnew Habsent.
  - exact Habsent.
  - apply not_elem_of_cons in Hnew as [Hne Hnew].
    cbn [revoke_all foldl]. apply IH; [done|].
    by apply invalidate_token_keeps_absent.
Qed.

(** C8: a token that is not in the registry and is not among the tokens
    revoked since is reported as not revoked: the query returns [False], it
    does not raise, and it leaves the store, the cache and the log as they
    were.  The query writes nothing for any token and any store. *)
Theorem never_revoked_is_not_revoked token0 tokens w0 :
  token0 ∉ token <$> invalid_tokens (tables w0) →
  token0 ∉ tokens →
  repository_users.is_validate_token token0 (revoke_all tokens w0)
  = (Ok false, revoke_all tokens w0)
  ∧ ∀ token1 w, (repository_users.is_validate_token token1 w).2 = w.
Proof.
  intros Habsent Hnew. split.
  - apply is_validate_token_absent. by apply revoke_all_keeps_absent.
  - intros token1 w. apply is_validate_token_reads_only.
Qed.

Lemma never_revoked_is_not_revoked_witness :
  ("t0" ∉ token <$> invalid_tokens (tables world0))
  ∧ ("t0" ∉ ["t1"; "t2"; "t1"])
  ∧ repository_users.is_validate_token "t0"
      (revoke_all ["t1"; "t2"; "t1"] world0)
    = (Ok false, revoke_all ["t1"; "t2"; "t1"] world0)
  ∧ ∀ token1 w, (repository_users.is_validate_token token1 w).2 = w.
Proof.
  assert (H0 : "t0" ∉ token <$> invalid_tokens (tables world0))
    by apply not_elem_of_nil.
  assert (H1 : "t0" ∉ ["t1"; "t2"; "t1"])
    by (intros Hin; absurd_membership Hin).
  split; [exact H0|]. split; [exact H1|].
  apply (never_revoked_is_not_revoked "t0" ["t1"; "t2"; "t1"] world0 H0 H1).
Defined.

(** C4, as the code has it: once the revocation of a token has succeeded,
    the query reports the token as revoked, and a second revocation of it is
    refused by the store: the pending row is rolled back, the registry is as
    it was, and the [IntegrityError] of the store is raised again as it is,
    which is no typed result. *)
Theorem revoke_twice token0 w w1 :
  repository_users.invalidate_token token0 w = (Ok tt, w1) →
  repository_users.is_validate_token token0 w1 = (Ok true, w1)
  ∧ repository_users.invalidate_token token0 w1
    = (Raise IntegrityError,
       emit Rollback (emit (CommitFailed IntegrityError) w1))
  ∧ kind_of IntegrityError = None.
Proof.
  rewrite invalidate_token_eq.
  destruct (storage_ok w) eqn:Hstore; [|discriminate].
  destruct (bool_decide _) eqn:Hwf; [|discriminate].
  intros [= <-]. apply bool_decide_eq_true_1 in Hwf.
  destruct Hwf as (He & Hu & Ht & Hr). cbn [staged_token invalid_tokens] in Ht.
  assert (Hin : mkInvalidToken token0
                ∈ invalid_tokens (tables w) ++ [mkInvalidToken token0]).
  { apply elem_of_app. right. apply list_elem_of_singleton. reflexivity. }
  split; [|split; [|reflexivity]].
  - rewrite is_validate_token_eq.
    cbn [emit with_tables tables staged_token invalid_tokens].
    change token0 with (token (mkInvalidToken token0)) at 1.
    by rewrite (filter_key_unique token).
  - rewrite invalidate_token_eq.
    cbn [emit with_tables storage_ok]. rewrite Hstore.
    rewrite bool_decide_eq_false_2; [reflexivity|].
    intros (_ & _ & Hdup & _).
    by apply (filter_key_duplicate token _ (mkInvalidToken token0)) in Hdup.
Qed.

Lemma revoke_twice_witness :
  repository_users.invalidate_token "t0" world0
  = (Ok tt, emit Commit (with_tables (staged_token "t0" world0) world0))
  ∧ repository_users.is_validate_token "t0"
      (emit Commit (with_tables (staged_token "t0" world0) world0))
    = (Ok true, emit Commit (with_tables (staged_token "t0" world0) world0))
  ∧ repository_users.invalidate_token "t0"
      (emit Commit (with_tables (staged_token "t0" world0) world0))
    = (Raise IntegrityError,
       emit Rollback
         (emit (CommitFailed IntegrityError)
            (emit Commit (with_tables (staged_token "t0" world0) world0))))
  ∧ kind_of IntegrityError = None.
Proof.
  assert (H0 : repository_users.invalidate_token "t0" world0
               = (Ok tt, emit Commit
                           (with_tables (staged_token "t0" world0) world0)))
    by (vm_compute; reflexivity).
  split; [exact H0|].
  exact (revoke_twice "t0" world0 _ H0).
Defined.

(** C4, as stated, fails: the second revocation of ["t0"] is neither a
    success that changes nothing nor a refusal of kind [Conflict]; the
    exception of the store leaves the function. *)
Lemma second_revocation_escapes :
  let w1 := (repository_users.invalidate_token "t0" world0).2 in
  let again := repository_users.invalidate_token "t0" w1 in
  (repository_users.invalidate_token "t0" world0).1 = Ok tt
  ∧ (repository_users.is_validate_token "t0" w1).1 = Ok true
  ∧ again.1 = Raise IntegrityError
  ∧ again.1 ≠ Ok tt
  ∧ (∀ e, again.1 = Raise e → kind_of e ≠ Some Conflict).
Proof.
  vm_compute. repeat split; try discriminate.
  intros e [= <-]. discriminate.
Qed.

(** ** Registration *)

Lemma create_user_eq gravatar_get_image body w :
  repository_users.create_user gravatar_get_image body w =
  let row := new_row gravatar_get_image body w in
  if storage_ok w then
    if bool_decide (constraints (staged_user row w))
    then (Ok row, emit Commit (with_tables (staged_user row w) w))
    else (Raise IntegrityError, emit (CommitFailed IntegrityError) w)
  else (Raise OperationalError, emit (CommitFailed OperationalError) w).
Proof.
  unfold repository_users.create_user, bind, db_execute, db_add_user,
    db_commit, new_row, staged_user.
  cbn [fst snd].
  destruct (users (tables w)) as [|first rest] eqn:Husers;
    cbn [take head]; rewrite <- ?Husers;
    (destruct (storage_ok w); [|reflexivity]);
    destruct (bool_decide _); reflexivity.
Qed.

Lemma new_row_role gravatar_get_image body w :
  roles (new_row gravatar_get_image body w)
  = match users (tables w) with
    | [] => Role.admin
    | _ :: _ => Role.user
    end.
Proof. unfold new_row. by destruct (users (tables w)). Qed.

(** Whenever an account is created, its role is the one above. *)
Lemma create_user_role gravatar_get_image body w u w' :
  repository_users.create_user gravatar_get_image body w = (Ok u, w') →
  roles u = match users (tables w) with
            | [] => Role.admin
            | _ :: _ => Role.user
            end.
Proof.
  rewrite create_user_eq. cbv zeta.
  destruct (storage_ok w); [destruct (bool_decide _)|]; intros [= <- <-].
  apply new_row_role.
Qed.

(** C9: in a store that accepts the commit, a registration whose email and
    username are not taken creates the account; the account is an admin when
    the [users] table was empty, and has the default role [user] when the
    table already had a row. *)
Theorem first_user_is_admin gravatar_get_image body w :
  storage_ok w = true →
  constraints (tables w) →
  body_email body ∉ email <$> users (tables w) →
  body_username body ∉ username <$> users (tables w) →
  ∃ u w',
    repository_users.create_user gravatar_get_image body w = (Ok u, w')
    ∧ users (tables w') = users (tables w) ++ [u]
    ∧ roles u = match users (tables w) with
                | [] => Role.admin
                | _ :: _ => Role.user
                end.
Proof.
  intros Hstore (He & Hu & Ht & Hr) Hemail Hname.
  exists (new_row gravatar_get_image body w).
  eexists. rewrite create_user_eq. cbv zeta. rewrite Hstore.
  rewrite bool_decide_eq_true_2.
  - split; [reflexivity|]. split; [reflexivity|]. apply new_row_role.
  - unfold constraints, staged_user. cbn [users invalid_tokens ratings].
    rewrite !fmap_app. repeat split; [| |exact Ht|exact Hr].
    + apply NoDup_app. repeat split; [exact He| |apply NoDup_singleton].
      intros x Hx Hin. apply list_elem_of_singleton in Hin. by subst x.
    + apply NoDup_app. repeat split; [exact Hu| |apply NoDup_singleton].
      intros x Hx Hin. apply list_elem_of_singleton in Hin. by subst x.
Qed.

Lemma first_user_is_admin_witness :
  (∃ u w', repository_users.create_user (λ e, "avatar:" +:+ e) carol
             empty_world = (Ok u, w')
           ∧ users (tables w') = users (tables empty_world) ++ [u]
           ∧ roles u = Role.admin)
  ∧ (∃ u w', repository_users.create_user (λ e, "avatar:" +:+ e) carol
               world0 = (Ok u, w')
             ∧ users (tables w') = users (tables world0) ++ [u]
             ∧ roles u = Role.user).
Proof.
  split.
  - apply (first_user_is_admin (λ e, "avatar:" +:+ e) carol empty_world).
    + reflexivity.
    + apply (bool_decide_unpack (constraints (tables empty_world))).
      vm_compute. exact I.
    + apply not_elem_of_nil.
    + apply not_elem_of_nil.
  - apply (first_user_is_admin (λ e, "avatar:" +:+ e) carol world0).
    + reflexivity.
    + apply (bool_decide_unpack (constraints (tables world0))).
      vm_compute. exact I.
    + intros Hin. cbn in Hin. absurd_membership Hin.
    + intros Hin. cbn in Hin. absurd_membership Hin.
Defined.

(** * Further properties of the repository and of the routes *)

(** ** The registry of revoked tokens, continued *)

Lemma is_validate_token_present token0 w :
  constraints (tables w) →
  token0 ∈ token <$> invalid_tokens (tables w) →
  repository_users.is_validate_token token0 w = (Ok true, w).
Proof.
  intros (_ & _ & Ht & _) Hin.
  apply list_elem_of_fmap in Hin as (row & -> & Hrow).
  rewrite is_validate_token_eq.
  by rewrite (filter_key_unique token).
Qed.

Lemma invalidate_token_constraints token0 w :
  constraints (tables w) →
  constraints (tables (repository_users.invalidate_token token0 w).2).
Proof.
  intros Hwf. rewrite invalidate_token_eq.
  destruct (storage_ok w); [|exact Hwf].
  destruct (bool_decide _) eqn:Hstaged; [|exact Hwf].
  by apply bool_decide_eq_true_1 in Hstaged.
Qed.

Lemma invalidate_token_keeps_present token0 token1 w :
  token0 ∈ token <$> invalid_tokens (tables w) →
  token0 ∈ token <$>
    invalid_tokens (tables (repository_users.invalidate_token token1 w).2).
Proof.
  intros Hin. rewrite invalidate_token_eq.
  destruct (storage_ok w); [destruct (bool_decide _)|]; cbn; try done.
  rewrite fmap_app, elem_of_app. by left.
Qed.

(** Revoking one token does not change the answer of the query for any
    other token, whether the revocation is committed or refused. *)
Theorem revocation_is_local token0 token1 w :
  token0 ≠ token1 →
  (repository_users.is_validate_token token0
     (repository_users.invalidate_token token1 w).2).1
  = (repository_users.is_validate_token token0 w).1.
Proof.
  intros Hne. rewrite !is_validate_token_eq, invalidate_token_eq.
  destruct (storage_ok w); [destruct (bool_decide _)|]; cbn;
    rewrite ?filter_app, ?filter_cons_False, ?filter_nil, ?app_nil_r
      by (cbn; congruence);
    by destruct (filter _ _) as [|r [|r' rows]].
Qed.

Lemma revocation_is_local_witness :
  "t0" ≠ "t1"
  ∧ (repository_users.is_validate_token "t0"
       (repository_users.invalidate_token "t1"
          (revoke_all ["t0"] world0)).2).1
    = (repository_users.is_validate_token "t0" (revoke_all ["t0"] world0)).1.
Proof.
  assert (Hne : "t0" ≠ "t1") by discriminate.
  split; [exact Hne|].
  apply (revocation_is_local "t0" "t1" (revoke_all ["t0"] world0) Hne).
Defined.

(** In a consistent store that accepts the commit, the revocation of a
    token that is not yet in the registry succeeds, adds exactly that token,
    and the query then reports it as revoked. *)
Theorem fresh_token_is_revoked token0 w :
  storage_ok w = true →
  constraints (tables w) →
  token0 ∉ token <$> invalid_tokens (tables w) →
  ∃ w1,
    repository_users.invalidate_token token0 w = (Ok tt, w1)
    ∧ invalid_tokens (tables w1)
      = invalid_tokens (tables w) ++ [mkInvalidToken token0]
    ∧ users (tables w1) = users (tables w)
    ∧ repository_users.is_validate_token token0 w1 = (Ok true, w1).
Proof.
  intros Hstore (He & Hu & Ht & Hr) Hnew.
  assert (Hstaged : constraints (staged_token token0 w)).
  { unfold constraints, staged_token. cbn [users invalid_tokens ratings].
    repeat split; try done.
    rewrite fmap_app. apply NoDup_app. repeat split; [done| |apply NoDup_singleton].
    intros x Hx Hin. apply list_elem_of_singleton in Hin. by subst x. }
  eexists. rewrite invalidate_token_eq, Hstore.
  rewrite bool_decide_eq_true_2 by done.
  split; [reflexivity|]. split; [reflexivity|]. split; [reflexivity|].
  apply is_validate_token_present; [exact Hstaged|].
  cbn. rewrite fmap_app, elem_of_app. right.
  apply list_elem_of_singleton. reflexivity.
Qed.

Lemma fresh_token_is_revoked_witness :
  storage_ok world0 = true
  ∧ constraints (tables world0)
  ∧ ("t0" ∉ token <$> invalid_tokens (tables world0))
  ∧ ∃ w1,
      repository_users.invalidate_token "t0" world0 = (Ok tt, w1)
      ∧ invalid_tokens (tables w1)
        = invalid_tokens (tables world0) ++ [mkInvalidToken "t0"]
      ∧ users (tables w1) = users (tables world0)
      ∧ repository_users.is_validate_token "t0" w1 = (Ok true, w1).
Proof.
  assert (H0 : storage_ok world0 = true) by reflexivity.
  assert (H1 : constraints (tables world0)).
  { apply (bool_decide_unpack (constraints (tables world0))).
    vm_compute. exact I. }
  assert (H2 : "t0" ∉ token <$> invalid_tokens (tables world0))
    by apply not_elem_of_nil.
  split; [exact H0|]. split; [exact H1|]. split; [exact H2|].
  exact (fresh_token_is_revoked "t0" world0 H0 H1 H2).
Defined.

Lemma revoke_all_constraints tokens w :
  constraints (tables w) → constraints (tables (revoke_all tokens w)).
Proof.
  revert w. induction tokens as [|token1 tokens IH]; intros w Hwf; [done|].
  cbn [revoke_all foldl]. apply IH. by apply invalidate_token_constraints.
Qed.

Lemma revoke_all_keeps_present token0 tokens w :
  token0 ∈ token <$> invalid_tokens (tables w) →
  token0 ∈ token <$> invalid_tokens (tables (revoke_all tokens w)).
Proof.
  revert w. induction tokens as [|token1 tokens IH]; intros w Hin; [done|].
  cbn [revoke_all foldl]. apply IH. by apply invalidate_token_keeps_present.
Qed.

(** The registry only grows: a token that is in the registry of a
    consistent store is still reported as revoked after any sequence of
    further revocations, of this token or of others, committed or refused. *)
Theorem revoked_stays_revoked token0 tokens w :
  constraints (tables w) →
  token0 ∈ token <$> invalid_tokens (tables w) →
  repository_users.is_validate_token token0 (revoke_all tokens w)
  = (Ok true, revoke_all tokens w).
Proof.
  intros Hwf Hin. apply is_validate_token_present.
  - by apply revoke_all_constraints.
  - by apply revoke_all_keeps_present.
Qed.

Lemma revoked_stays_revoked_witness :
  constraints (tables (revoke_all ["t0"] world0))
  ∧ ("t0" ∈ token <$> invalid_tokens (tables (revoke_all ["t0"] world0)))
  ∧ repository_users.is_validate_token "t0"
      (revoke_all ["t1"; "t0"; "t2"] (revoke_all ["t0"] world0))
    = (Ok true, revoke_all ["t1"; "t0"; "t2"] (revoke_all ["t0"] world0)).
Proof.
  assert (H1 : constraints (tables (revoke_all ["t0"] world0))).
  { apply (bool_decide_unpack (constraints (tables (revoke_all ["t0"] world0)))).
    vm_compute. exact I. }
  assert (H2 : "t0" ∈ token <$> invalid_tokens
                                  (tables (revoke_all ["t0"] world0))).
  { apply list_elem_of_singleton. reflexivity. }
  split; [exact H1|]. split; [exact H2|].
  exact (revoked_stays_revoked "t0" ["t1"; "t0"; "t2"]
           (revoke_all ["t0"] world0) H1 H2).
Defined.

(** ** Rows and assignments *)

Lemma update_row_absent row f l : row ∉ l → update_row row f l = l.
Proof.
  induction l as [|x l IH]; [done|].
  rewrite not_elem_of_cons. intros [Hne Hnin]. cbn [update_row].
  rewrite decide_False by congruence. by rewrite IH.
Qed.

Lemma update_row_elem row f l : row ∈ l → f row ∈ update_row row f l.
Proof.
  induction l as [|x l IH]; intros Hin.
  - by apply elem_of_nil in Hin.
  - cbn [update_row]. destruct (decide (x = row)) as [->|Hne].
    + apply elem_of_cons. by left.
    + apply elem_of_cons in Hin as [->|Hin]; [done|].
      apply elem_of_cons. right. by apply IH.
Qed.

(** A filter on a column that the assignment keeps commutes with it. *)
Lemma update_row_filter (P : User → Prop) `{∀ x, Decision (P x)} row f l :
  (∀ x, P (f x) ↔ P x) →
  filter P (update_row row f l) = update_row row f (filter P l).
Proof.
  intros HP. induction l as [|x l IH]; [done|].
  cbn [update_row]. destruct (decide (x = row)) as [->|Hne].
  - destruct (decide (P row)) as [Hrow|Hrow].
    + rewrite (filter_cons_True _ (f row)) by (by apply HP).
      rewrite (filter_cons_True _ row) by done.
      cbn [update_row]. by rewrite decide_True.
    + rewrite (filter_cons_False _ (f row)) by (by rewrite HP).
      rewrite (filter_cons_False _ row) by done.
      rewrite update_row_absent; [done|].
      intros Hin. apply list_elem_of_filter in Hin. tauto.
  - destruct (decide (P x)) as [Hx|Hx].
    + rewrite !filter_cons_True by done.
      cbn [update_row]. rewrite decide_False by done. by rewrite IH.
    + rewrite !filter_cons_False by done. exact IH.
Qed.

(** An assignment that is taken back gives the table back. *)
Lemma update_row_undo row f g l :
  NoDup (email <$> l) →
  row ∈ l →
  email (f row) = email row →
  g (f row) = row →
  update_row (f row) g (update_row row f l) = l.
Proof.
  intros Hnd Hin Hemail Hback.
  induction l as [|x l IH]; [by apply elem_of_nil in Hin|].
  rewrite fmap_cons in Hnd. apply NoDup_cons in Hnd as [Hfresh Hnd].
  cbn [update_row]. destruct (decide (x = row)) as [->|Hne].
  - cbn [update_row]. rewrite decide_True by done. by rewrite Hback.
  - apply elem_of_cons in Hin as [->|Hin]; [done|].
    cbn [update_row]. rewrite decide_False; [by rewrite IH|].
    intros ->. apply Hfresh. rewrite Hemail.
    by apply list_elem_of_fmap_2.
Qed.

(** The lookup by email of a row of a consistent table finds that row. *)
Lemma row_by_email row w :
  constraints (tables w) →
  row ∈ users (tables w) →
  head (filter (λ u, email u = email row) (users (tables w))) = Some row.
Proof.
  intros (He & _) Hin. by rewrite (filter_key_unique email).
Qed.

Lemma row_by_username row w :
  constraints (tables w) →
  row ∈ users (tables w) →
  filter (λ u, username u = username row) (users (tables w)) = [row].
Proof.
  intros (_ & Hu & _) Hin. by rewrite (filter_key_unique username).
Qed.

Lemma no_row_by_email email0 w :
  email0 ∉ email <$> users (tables w) →
  head (filter (λ u, email u = email0) (users (tables w))) = None.
Proof. intros Hnew. by rewrite (filter_key_absent email). Qed.

(** The other functions that assign to a row, case by case. *)

Lemma confirmed_email_eq email0 w :
  repository_users.confirmed_email email0 w =
  match head (filter (λ u, email u = email0) (users (tables w))) with
  | None => (Ok tt, w)
  | Some row =>
      if storage_ok w then
        if bool_decide (constraints (staged_assignment (set_confirmed true) row w))
        then (Ok tt,
              emit Commit
                (with_tables (staged_assignment (set_confirmed true) row w) w))
        else (Raise IntegrityError, emit (CommitFailed IntegrityError) w)
      else (Raise OperationalError, emit (CommitFailed OperationalError) w)
  end.
Proof.
  unfold repository_users.confirmed_email, bind.
  rewrite get_user_by_email_eq.
  destruct (head _) as [row|]; [|reflexivity].
  unfold db_setattr, db_commit.
  fold (staged_assignment (set_confirmed true) row w).
  destruct (storage_ok w); [|reflexivity].
  destruct (bool_decide _); reflexivity.
Qed.

Lemma update_token_eq user refresh_token0 w :
  repository_users.update_token user refresh_token0 w =
  if opt_str_truthy refresh_token0 then
    if storage_ok w then
      if bool_decide
           (constraints
              (staged_assignment (set_refresh_token refresh_token0) user w))
      then (Ok tt,
            emit Commit
              (with_tables
                 (staged_assignment (set_refresh_token refresh_token0) user w)
                 w))
      else (Raise IntegrityError, emit (CommitFailed IntegrityError) w)
    else (Raise OperationalError, emit (CommitFailed OperationalError) w)
  else (Ok tt, w).
Proof.
  unfold repository_users.update_token.
  destruct (opt_str_truthy refresh_token0); [|reflexivity].
  unfold bind, db_setattr, db_commit.
  fold (staged_assignment (set_refresh_token refresh_token0) user w).
  destruct (storage_ok w); [|reflexivity].
  destruct (bool_decide _); reflexivity.
Qed.

Lemma change_password_eq user password0 w :
  repository_users.change_password user password0 w =
  if storage_ok w then
    if bool_decide
         (constraints (staged_assignment (set_password password0) user w))
    then (Ok (set_password password0 user),
          emit Commit
            (with_tables (staged_assignment (set_password password0) user w) w))
    else (Raise IntegrityError,
          emit Rollback (emit (CommitFailed IntegrityError) w))
  else (Raise OperationalError,
        emit Rollback (emit (CommitFailed OperationalError) w)).
Proof.
  unfold repository_users.change_password, try_except, bind, db_setattr,
    db_commit.
  fold (staged_assignment (set_password password0) user w).
  destruct (storage_ok w); [|reflexivity].
  destruct (bool_decide _); reflexivity.
Qed.

Lemma edit_my_profile_eq {UploadFile UploadResult : Type}
    (upload : UploadFile → string → Res UploadResult)
    (build_url : string → UploadResult → string) email0 file name w :
  repository_users.edit_my_profile upload build_url email0 file name w =
  match head (filter (λ u, email u = email0) (users (tables w))) with
  | None => (Ok None, w)
  | Some row =>
      let renamed := if str_truthy name then set_username name row else row in
      match upload file ("avatar/" +:+ username renamed) with
      | Raise e => (Raise e, w)
      | Ok r =>
          let edited := edited_row build_url name r row in
          let staged := staged_assignment (λ _, edited) row w in
          if storage_ok w then
            if bool_decide (constraints staged)
            then (Ok (Some edited), emit Commit (with_tables staged w))
            else (Raise IntegrityError,
                  emit Rollback (emit (CommitFailed IntegrityError) w))
          else (Raise OperationalError,
                emit Rollback (emit (CommitFailed OperationalError) w))
      end
  end.
Proof.
  unfold repository_users.edit_my_profile, bind at 1.
  rewrite get_user_by_email_eq.
  destruct (head _) as [row|]; [|reflexivity].
  unfold bind at 1, external.
  destruct (upload _ _) as [r|e]; [|reflexivity].
  unfold try_except, bind, db_setattr, db_commit. cbv zeta.
  fold (edited_row build_url name r row).
  fold (staged_assignment (λ _, edited_row build_url name r row) row w).
  destruct (storage_ok w); [|reflexivity].
  destruct (bool_decide _); reflexivity.
Qed.

(** An email that no account carries: the functions that look the account
    up by email answer with nothing and leave the store, the cache and the
    log as they are; nothing is uploaded into a profile either. *)
Theorem unknown_email_changes_nothing {UploadFile UploadResult : Type}
    (upload : UploadFile → string → Res UploadResult)
    (build_url : string → UploadResult → string) email0 file name w :
  email0 ∉ email <$> users (tables w) →
  repository_users.get_user_by_email email0 w = (Ok None, w)
  ∧ repository_users.ban_user email0 w = (Ok None, w)
  ∧ repository_users.activate_user email0 w = (Ok None, w)
  ∧ repository_users.confirmed_email email0 w = (Ok tt, w)
  ∧ repository_users.edit_my_profile upload build_url email0 file name w
    = (Ok None, w).
Proof.
  intros Hnew. pose proof (no_row_by_email _ _ Hnew) as Hnone.
  rewrite get_user_by_email_eq, ban_user_eq, activate_user_eq,
    confirmed_email_eq, edit_my_profile_eq.
  unfold assignment_outcome. rewrite Hnone. repeat split.
Qed.

Lemma unknown_email_changes_nothing_witness :
  ("dora@example.org" ∉ email <$> users (tables world0))
  ∧ repository_users.get_user_by_email "dora@example.org" world0
    = (Ok None, world0)
  ∧ repository_users.ban_user "dora@example.org" world0 = (Ok None, world0)
  ∧ repository_users.activate_user "dora@example.org" world0
    = (Ok None, world0)
  ∧ repository_users.confirmed_email "dora@example.org" world0
    = (Ok tt, world0)
  ∧ repository_users.edit_my_profile sample_upload sample_build_url
      "dora@example.org" [1; 2] "dora" world0
    = (Ok None, world0).
Proof.
  assert (H0 : "dora@example.org" ∉ email <$> users (tables world0)).
  { intros Hin. cbn in Hin. absurd_membership Hin. }
  split; [exact H0|].
  exact (unknown_email_changes_nothing sample_upload sample_build_url
           "dora@example.org" [1; 2] "dora" world0 H0).
Defined.

Lemma assignment_outcome_commits f row w :
  constraints (tables w) →
  storage_ok w = true →
  row ∈ users (tables w) →
  (∀ u, email (f u) = email u) →
  (∀ u, username (f u) = username u) →
  assignment_outcome f (email row) w
  = (Ok (Some (f row)),
     emit Commit (with_tables (staged_assignment f row w) w)).
Proof.
  intros Hwf Hstore Hin Hemail Hname. unfold assignment_outcome.
  rewrite row_by_email, Hstore by done.
  rewrite bool_decide_eq_true_2; [reflexivity|].
  by apply staged_assignment_constraints.
Qed.

Lemma lookup_after_assignment f row w :
  constraints (staged_assignment f row w) →
  row ∈ users (tables w) →
  email (f row) = email row →
  repository_users.get_user_by_email (email row)
    (emit Commit (with_tables (staged_assignment f row w) w))
  = (Ok (Some (f row)),
     emit Commit (with_tables (staged_assignment f row w) w)).
Proof.
  intros Hstaged Hin Hemail. rewrite get_user_by_email_eq, <- Hemail.
  rewrite row_by_email; [reflexivity|exact Hstaged|].
  cbn. by apply update_row_elem.
Qed.

(** An assignment to the account of one email leaves the lookup of every
    other email as it was. *)
Lemma assignment_outcome_frame f email0 email1 w :
  (∀ u, email (f u) = email u) →
  email1 ≠ email0 →
  filter (λ u, email u = email1)
         (users (tables (assignment_outcome f email0 w).2))
  = filter (λ u, email u = email1) (users (tables w)).
Proof.
  intros Hemail Hne. unfold assignment_outcome.
  destruct (head _) as [row|] eqn:Hrow; [|reflexivity].
  destruct (storage_ok w); [destruct (bool_decide _)|]; try reflexivity.
  cbn [snd emit with_tables tables staged_assignment users].
  rewrite update_row_filter by (intros x; by rewrite Hemail).
  apply update_row_absent. intros Hin.
  apply list_elem_of_filter in Hin as [Hrow1 _].
  apply head_Some_elem_of in Hrow.
  apply list_elem_of_filter in Hrow as [Hrow0 _]. congruence.
Qed.

(** ** Banning and activating in the repository *)

(** In a consistent store that accepts commits, banning an active account
    and activating it again is a round trip: the ban answers with the row
    made inactive, a lookup by email then shows the account banned, the
    activation answers with the row as it was, and the tables are again
    the ones before the ban. *)
Theorem ban_then_activate_restores row w :
  constraints (tables w) →
  storage_ok w = true →
  row ∈ users (tables w) →
  is_active row = true →
  ∃ w1 w2,
    repository_users.ban_user (email row) w
    = (Ok (Some (set_is_active false row)), w1)
    ∧ repository_users.get_user_by_email (email row) w1
      = (Ok (Some (set_is_active false row)), w1)
    ∧ repository_users.activate_user (email row) w1 = (Ok (Some row), w2)
    ∧ tables w2 = tables w.
Proof.
  intros Hwf Hstore Hin Hactive.
  assert (Hstaged : constraints (staged_assignment (set_is_active false) row w))
    by (by apply staged_assignment_constraints).
  assert (Hback : set_is_active true (set_is_active false row) = row).
  { destruct row. cbn in Hactive. subst. reflexivity. }
  set (w1 := emit Commit
               (with_tables (staged_assignment (set_is_active false) row w) w)).
  assert (Hin1 : set_is_active false row ∈ users (tables w1))
    by (cbn; by apply update_row_elem).
  exists w1. eexists. split; [|split; [|split]].
  - rewrite ban_user_eq. by apply assignment_outcome_commits.
  - by apply lookup_after_assignment.
  - rewrite activate_user_eq.
    change (email row) with (email (set_is_active false row)).
    rewrite assignment_outcome_commits by done.
    by rewrite Hback.
  - destruct Hwf as (He & _).
    unfold w1, staged_assignment.
    cbn [emit with_tables tables users invalid_tokens ratings].
    rewrite (update_row_undo row (set_is_active false) (set_is_active true))
      by done.
    by destruct (tables w).
Qed.

Lemma ban_then_activate_restores_witness :
  constraints (tables world0)
  ∧ storage_ok world0 = true
  ∧ bob ∈ users (tables world0)
  ∧ is_active bob = true
  ∧ ∃ w1 w2,
      repository_users.ban_user (email bob) world0
      = (Ok (Some (set_is_active false bob)), w1)
      ∧ repository_users.get_user_by_email (email bob) w1
        = (Ok (Some (set_is_active false bob)), w1)
      ∧ repository_users.activate_user (email bob) w1 = (Ok (Some bob), w2)
      ∧ tables w2 = tables world0.
Proof.
  assert (H0 : constraints (tables world0)).
  { apply (bool_decide_unpack (constraints (tables world0))).
    vm_compute. exact I. }
  assert (H1 : storage_ok world0 = true) by reflexivity.
  assert (H2 : bob ∈ users (tables world0)).
  { cbn. rewrite !elem_of_cons. auto. }
  assert (H3 : is_active bob = true) by reflexivity.
  split; [exact H0|]. split; [exact H1|]. split; [exact H2|].
  split; [exact H3|].
  exact (ban_then_activate_restores bob world0 H0 H1 H2 H3).
Defined.

(** Banning or activating the account of one email never changes what the
    lookup of another email answers, whether the commit goes through or
    not. *)
Theorem other_accounts_are_untouched email0 email1 w :
  email1 ≠ email0 →
  (repository_users.get_user_by_email email1
     (repository_users.ban_user email0 w).2).1
  = (repository_users.get_user_by_email email1 w).1
  ∧ (repository_users.get_user_by_email email1
       (repository_users.activate_user email0 w).2).1
    = (repository_users.get_user_by_email email1 w).1.
Proof.
  intros Hne. rewrite !get_user_by_email_eq, ban_user_eq, activate_user_eq.
  cbn [fst]. by rewrite !assignment_outcome_frame.
Qed.

Lemma other_accounts_are_untouched_witness :
  "mona@example.org" ≠ "bob@example.org"
  ∧ (repository_users.get_user_by_email "mona@example.org"
       (repository_users.ban_user "bob@example.org" world0).2).1
    = (repository_users.get_user_by_email "mona@example.org" world0).1
  ∧ (repository_users.get_user_by_email "mona@example.org"
       (repository_users.activate_user "bob@example.org" world0).2).1
    = (repository_users.get_user_by_email "mona@example.org" world0).1.
Proof.
  assert (Hne : "mona@example.org" ≠ "bob@example.org") by discriminate.
  split; [exact Hne|].
  exact (other_accounts_are_untouched "bob@example.org" "mona@example.org"
           world0 Hne).
Defined.



(** ** Passwords, confirmations and refresh tokens *)

Lemma update_row_same row g l : g row = row → update_row row g l = l.
Proof.
  intros Hsame. induction l as [|x l IH]; [done|].
  cbn [update_row]. destruct (decide (x = row)) as [->|Hne].
  - by rewrite Hsame.
  - by rewrite IH.
Qed.

(** In a consistent store that accepts the commit, [change_password] on a
    row of the table answers with the row carrying the new password, and
    the next lookup by email finds exactly that row: nothing but the
    password has changed. *)
Theorem changed_password_is_stored user password0 w :
  constraints (tables w) →
  storage_ok w = true →
  user ∈ users (tables w) →
  ∃ w1,
    repository_users.change_password user password0 w
    = (Ok (set_password password0 user), w1)
    ∧ repository_users.get_user_by_email (email user) w1
      = (Ok (Some (set_password password0 user)), w1).
Proof.
  intros Hwf Hstore Hin.
  assert (Hstaged : constraints (staged_assignment (set_password password0)
                                   user w))
    by (by apply staged_assignment_constraints).
  eexists. rewrite change_password_eq, Hstore.
  rewrite bool_decide_eq_true_2 by done.
  split; [reflexivity|]. by apply lookup_after_assignment.
Qed.

Lemma changed_password_is_stored_witness :
  constraints (tables world0)
  ∧ storage_ok world0 = true
  ∧ bob ∈ users (tables world0)
  ∧ ∃ w1,
      repository_users.change_password bob "h9" world0
      = (Ok (set_password "h9" bob), w1)
      ∧ repository_users.get_user_by_email (email bob) w1
        = (Ok (Some (set_password "h9" bob)), w1).
Proof.
  assert (H0 : constraints (tables world0)).
  { apply (bool_decide_unpack (constraints (tables world0))).
    vm_compute. exact I. }
  assert (H1 : storage_ok world0 = true) by reflexivity.
  assert (H2 : bob ∈ users (tables world0)).
  { cbn. rewrite !elem_of_cons. auto. }
  split; [exact H0|]. split; [exact H1|]. split; [exact H2|].
  exact (changed_password_is_stored bob "h9" world0 H0 H1 H2).
Defined.

(** In a consistent store that accepts commits, confirming the email of an
    account marks the account as confirmed for the next lookup, and
    confirming it once more changes no table. *)
Theorem confirmation_is_idempotent row w :
  constraints (tables w) →
  storage_ok w = true →
  row ∈ users (tables w) →
  ∃ w1 w2,
    repository_users.confirmed_email (email row) w = (Ok tt, w1)
    ∧ repository_users.get_user_by_email (email row) w1
      = (Ok (Some (set_confirmed true row)), w1)
    ∧ repository_users.confirmed_email (email row) w1 = (Ok tt, w2)
    ∧ tables w2 = tables w1.
Proof.
  intros Hwf Hstore Hin.
  assert (Hstaged : constraints (staged_assignment (set_confirmed true) row w))
    by (by apply staged_assignment_constraints).
  set (w1 := emit Commit
               (with_tables (staged_assignment (set_confirmed true) row w) w)).
  assert (Hin1 : set_confirmed true row ∈ users (tables w1))
    by (cbn; by apply update_row_elem).
  assert (Hagain : staged_assignment (set_confirmed true)
                     (set_confirmed true row) w1 = tables w1).
  { unfold staged_assignment. rewrite update_row_same by reflexivity.
    by destruct (tables w1). }
  exists w1. eexists. split; [|split; [|split]].
  - rewrite confirmed_email_eq, row_by_email, Hstore by done.
    by rewrite bool_decide_eq_true_2.
  - by apply lookup_after_assignment.
  - rewrite confirmed_email_eq.
    change (email row) with (email (set_confirmed true row)).
    rewrite row_by_email by done.
    change (storage_ok w1) with (storage_ok w). rewrite Hstore.
    rewrite bool_decide_eq_true_2; [reflexivity|].
    by rewrite Hagain.
  - cbn [emit with_tables tables]. exact Hagain.
Qed.

Lemma confirmation_is_idempotent_witness :
  constraints (tables world0)
  ∧ storage_ok world0 = true
  ∧ mona ∈ users (tables world0)
  ∧ ∃ w1 w2,
      repository_users.confirmed_email (email mona) world0 = (Ok tt, w1)
      ∧ repository_users.get_user_by_email (email mona) w1
        = (Ok (Some (set_confirmed true mona)), w1)
      ∧ repository_users.confirmed_email (email mona) w1 = (Ok tt, w2)
      ∧ tables w2 = tables w1.
Proof.
  assert (H0 : constraints (tables world0)).
  { apply (bool_decide_unpack (constraints (tables world0))).
    vm_compute. exact I. }
  assert (H1 : storage_ok world0 = true) by reflexivity.
  assert (H2 : mona ∈ users (tables world0)).
  { cbn. rewrite !elem_of_cons. auto. }
  split; [exact H0|]. split; [exact H1|]. split; [exact H2|].
  exact (confirmation_is_idempotent mona world0 H0 H1 H2).
Defined.

(** [update_token] stores a non-empty refresh token, and it cannot take one
    back: in a consistent store that accepts the commit the token is in the
    row that the next lookup finds, and a later call with [None] or with
    the empty string, for any user, does nothing at all, so the lookup
    still finds the token. *)
Theorem refresh_token_cannot_be_cleared user t w :
  constraints (tables w) →
  storage_ok w = true →
  user ∈ users (tables w) →
  str_truthy t = true →
  ∃ w1,
    repository_users.update_token user (Some t) w = (Ok tt, w1)
    ∧ repository_users.get_user_by_email (email user) w1
      = (Ok (Some (set_refresh_token (Some t) user)), w1)
    ∧ ∀ user' cleared,
        opt_str_truthy cleared = false →
        repository_users.update_token user' cleared w1 = (Ok tt, w1).
Proof.
  intros Hwf Hstore Hin Ht.
  assert (Hstaged : constraints (staged_assignment
                                   (set_refresh_token (Some t)) user w))
    by (by apply staged_assignment_constraints).
  eexists. rewrite update_token_eq. cbn [opt_str_truthy].
  rewrite Ht, Hstore. rewrite bool_decide_eq_true_2 by done.
  split; [reflexivity|]. split; [by apply lookup_after_assignment|].
  intros user' cleared Hfalsy. rewrite update_token_eq. by rewrite Hfalsy.
Qed.

Lemma refresh_token_cannot_be_cleared_witness :
  constraints (tables world0)
  ∧ storage_ok world0 = true
  ∧ bob ∈ users (tables world0)
  ∧ str_truthy "r1" = true
  ∧ ∃ w1,
      repository_users.update_token bob (Some "r1") world0 = (Ok tt, w1)
      ∧ repository_users.get_user_by_email (email bob) w1
        = (Ok (Some (set_refresh_token (Some "r1") bob)), w1)
      ∧ ∀ user' cleared,
          opt_str_truthy cleared = false →
          repository_users.update_token user' cleared w1 = (Ok tt, w1).
Proof.
  assert (H0 : constraints (tables world0)).
  { apply (bool_decide_unpack (constraints (tables world0))).
    vm_compute. exact I. }
  assert (H1 : storage_ok world0 = true) by reflexivity.
  assert (H2 : bob ∈ users (tables world0)).
  { cbn. rewrite !elem_of_cons. auto. }
  assert (H3 : str_truthy "r1" = true) by reflexivity.
  split; [exact H0|]. split; [exact H1|]. split; [exact H2|].
  split; [exact H3|].
  exact (refresh_token_cannot_be_cleared bob "r1" world0 H0 H1 H2 H3).
Defined.

(** ** Registration, continued *)

Lemma new_row_email gravatar_get_image body w :
  email (new_row gravatar_get_image body w) = body_email body.
Proof. reflexivity. Qed.

Lemma new_row_username gravatar_get_image body w :
  username (new_row gravatar_get_image body w) = body_username body.
Proof. reflexivity. Qed.

(** An account that [create_user] has created is the one the lookups by its
    email and by its username find next. *)
Theorem created_user_is_found gravatar_get_image body w u w' :
  repository_users.create_user gravatar_get_image body w = (Ok u, w') →
  repository_users.get_user_by_email (body_email body) w' = (Ok (Some u), w')
  ∧ repository_users.get_user_username (body_username body) w'
    = (Ok (Some u), w').
Proof.
  rewrite create_user_eq. cbv zeta.
  destruct (storage_ok w); [|discriminate].
  destruct (bool_decide _) eqn:Hstaged; [|discriminate].
  apply bool_decide_eq_true_1 in Hstaged. intros [= <- <-].
  set (row := new_row gravatar_get_image body w) in *.
  set (w' := emit Commit (with_tables (staged_user row w) w)).
  assert (Hin : row ∈ users (tables w')).
  { cbn. apply elem_of_app. right. apply list_elem_of_singleton. reflexivity. }
  split.
  - rewrite get_user_by_email_eq.
    rewrite <- (new_row_email gravatar_get_image body w). fold row.
    by rewrite row_by_email.
  - rewrite get_user_username_eq.
    rewrite <- (new_row_username gravatar_get_image body w). fold row.
    by rewrite row_by_username.
Qed.

Lemma created_user_is_found_witness :
  ∃ u w',
    repository_users.create_user (λ e, "avatar:" +:+ e) carol world0
    = (Ok u, w')
    ∧ repository_users.get_user_by_email (body_email carol) w'
      = (Ok (Some u), w')
    ∧ repository_users.get_user_username (body_username carol) w'
      = (Ok (Some u), w').
Proof.
  eexists. eexists.
  assert (H0 : repository_users.create_user (λ e, "avatar:" +:+ e) carol
                 world0
               = (Ok (new_row (λ e, "avatar:" +:+ e) carol world0),
                  emit Commit
                    (with_tables
                       (staged_user
                          (new_row (λ e, "avatar:" +:+ e) carol world0)
                          world0)
                       world0)))
    by (vm_compute; reflexivity).
  split; [exact H0|].
  exact (created_user_is_found (λ e, "avatar:" +:+ e) carol world0 _ _ H0).
Defined.

Lemma key_taken {A K : Type} (key : A → K) (l : list A) (x : A) :
  key x ∈ key <$> l → ¬ NoDup (key <$> (l ++ [x])).
Proof.
  intros Hin Hnd. rewrite fmap_app in Hnd.
  apply NoDup_app in Hnd as (_ & Hdisj & _).
  apply (Hdisj (key x)); [done|].
  apply list_elem_of_singleton. reflexivity.
Qed.

(** A registration with an email or a username that an account already
    carries is refused by the store: [create_user] lets the
    [IntegrityError] of the commit out as it is, without a rollback, and
    the tables are the ones before the call. *)
Theorem duplicate_registration_is_refused gravatar_get_image body w :
  storage_ok w = true →
  body_email body ∈ email <$> users (tables w)
  ∨ body_username body ∈ username <$> users (tables w) →
  repository_users.create_user gravatar_get_image body w
  = (Raise IntegrityError, emit (CommitFailed IntegrityError) w).
Proof.
  intros Hstore Htaken. rewrite create_user_eq. cbv zeta. rewrite Hstore.
  rewrite bool_decide_eq_false_2; [reflexivity|].
  intros (He & Hu & _). unfold staged_user in He, Hu. cbn [users] in He, Hu.
  destruct Htaken as [Htaken|Htaken].
  - by apply (key_taken email) in He.
  - by apply (key_taken username) in Hu.
Qed.

Lemma duplicate_registration_is_refused_witness :
  storage_ok world0 = true
  ∧ (body_email (mkUserModel "robert" "bob@example.org" "h5")
       ∈ email <$> users (tables world0)
     ∨ body_username (mkUserModel "robert" "bob@example.org" "h5")
         ∈ username <$> users (tables world0))
  ∧ repository_users.create_user (λ e, "avatar:" +:+ e)
      (mkUserModel "robert" "bob@example.org" "h5") world0
    = (Raise IntegrityError, emit (CommitFailed IntegrityError) world0).
Proof.
  assert (H0 : storage_ok world0 = true) by reflexivity.
  assert (H1 : body_email (mkUserModel "robert" "bob@example.org" "h5")
                 ∈ email <$> users (tables world0)
               ∨ body_username (mkUserModel "robert" "bob@example.org" "h5")
                   ∈ username <$> users (tables world0)).
  { left. cbn. rewrite !elem_of_cons. auto. }
  split; [exact H0|]. split; [exact H1|].
  exact (duplicate_registration_is_refused (λ e, "avatar:" +:+ e)
           (mkUserModel "robert" "bob@example.org" "h5") world0 H0 H1).
Defined.

(** ** Pages of users *)


(** ** Editing a profile *)

Lemma update_row_column_at {K} (col : User → K) (f : User → User) row l :
  col (f row) = col row →
  col <$> update_row row f l = col <$> l.
Proof.
  intros Hcol. induction l as [|x l IH]; [done|].
  cbn [update_row]. destruct (decide (x = row)) as [->|Hne].
  - by rewrite !fmap_cons, Hcol.
  - by rewrite !fmap_cons, IH.
Qed.

Lemma update_row_column_elem {K} (col : User → K) (f : User → User) row l y :
  y ∈ col <$> update_row row f l → y ∈ col <$> l ∨ y = col (f row).
Proof.
  induction l as [|x l IH]; [by left|].
  cbn [update_row]. destruct (decide (x = row)) as [->|Hne];
    rewrite !fmap_cons, !elem_of_cons.
  - intros [->|Hin]; auto.
  - intros [->|Hin]; [auto|]. destruct (IH Hin); auto.
Qed.

Lemma update_row_column_fresh {K} (col : User → K) (f : User → User) row l :
  NoDup (col <$> l) →
  col (f row) ∉ col <$> l →
  NoDup (col <$> update_row row f l).
Proof.
  induction l as [|x l IH]; [done|].
  rewrite fmap_cons, NoDup_cons, not_elem_of_cons.
  intros [Hx Hnd] [Hne Hnew]. cbn [update_row].
  destruct (decide (x = row)) as [->|Hrow];
    rewrite fmap_cons; apply NoDup_cons; split; auto.
  intros Hin. apply update_row_column_elem in Hin as [Hin|Hin]; congruence.
Qed.

Lemma update_row_column_gone {K} (col : User → K) (f : User → User) row l :
  NoDup (col <$> l) →
  row ∈ l →
  col (f row) ≠ col row →
  col row ∉ col <$> update_row row f l.
Proof.
  induction l as [|x l IH]; [intros _ Hin; by apply elem_of_nil in Hin|].
  rewrite fmap_cons, NoDup_cons. intros [Hx Hnd] Hin Hne.
  cbn [update_row]. destruct (decide (x = row)) as [->|Hrow];
    rewrite fmap_cons, not_elem_of_cons.
  - split; [congruence|done].
  - apply elem_of_cons in Hin as [->|Hin]; [done|].
    split; [|by apply IH].
    intros Heq. apply Hx. rewrite <- Heq. by apply list_elem_of_fmap_2.
Qed.

(** A name that an account carries is refused, the own current name of the
    acting user included: the request ends in 400 before anything is
    uploaded, and the store, the cache and the log are as they were. *)
Theorem taken_name_is_refused {UploadFile UploadResult : Type}
    (upload : UploadFile → string → Res UploadResult)
    (build_url : string → UploadResult → string) file current_user u w :
  constraints (tables w) →
  u ∈ users (tables w) →
  routes_users.edit_my_profile upload build_url (username u) file
    current_user w
  = (Raise (HTTPException 400
              (get_message "USER_WITH_THIS_NAME_ALREADY_EXISTS")), w).
Proof.
  intros Hwf Hin. unfold routes_users.edit_my_profile, bind.
  rewrite get_user_username_eq, row_by_username by done. reflexivity.
Qed.

Lemma taken_name_is_refused_witness :
  constraints (tables world0)
  ∧ bob ∈ users (tables world0)
  ∧ routes_users.edit_my_profile sample_upload sample_build_url
      (username bob) [1; 2] bob world0
    = (Raise (HTTPException 400
                (get_message "USER_WITH_THIS_NAME_ALREADY_EXISTS")), world0).
Proof.
  assert (H0 : constraints (tables world0)).
  { apply (bool_decide_unpack (constraints (tables world0))).
    vm_compute. exact I. }
  assert (H1 : bob ∈ users (tables world0)).
  { cbn. rewrite !elem_of_cons. auto. }
  split; [exact H0|]. split; [exact H1|].
  exact (taken_name_is_refused sample_upload sample_build_url [1; 2] bob bob
           world0 H0 H1).
Defined.

(** In a consistent store that accepts the commit, a profile edit with a
    free, non-empty name and a successful upload renames the account of the
    acting user: the response carries the row with the new name and the
    address of the avatar uploaded under that name, the lookups by the new
    name and by the email find that row, and the old name finds nobody. *)
Theorem profile_edit_round_trip {UploadFile UploadResult : Type}
    (upload : UploadFile → string → Res UploadResult)
    (build_url : string → UploadResult → string)
    name file current_user row r w :
  constraints (tables w) →
  storage_ok w = true →
  row ∈ users (tables w) →
  email current_user = email row →
  str_truthy name = true →
  name ∉ username <$> users (tables w) →
  upload file ("avatar/" +:+ name) = Ok r →
  let edited :=
    set_avatar (build_url ("avatar/" +:+ name) r) (set_username name row) in
  ∃ w1,
    routes_users.edit_my_profile upload build_url name file current_user w
    = (Ok (routes_users.mkResponse (Some edited)
             (get_message "MY_PROFILE_WAS_SUCCESSFULLY_EDITED")), w1)
    ∧ repository_users.get_user_username name w1 = (Ok (Some edited), w1)
    ∧ repository_users.get_user_by_email (email row) w1
      = (Ok (Some edited), w1)
    ∧ repository_users.get_user_username (username row) w1 = (Ok None, w1).
Proof.
  intros Hwf Hstore Hin Hemail Hname Hfree Hupload edited.
  assert (Hedited : edited_row build_url name r row = edited).
  { unfold edited_row. by rewrite Hname. }
  assert (Hother : name ≠ username row).
  { intros ->. apply Hfree. by apply list_elem_of_fmap_2. }
  pose proof Hwf as (He & Hu & Ht & Hr).
  set (staged := staged_assignment (λ _, edited) row w).
  assert (Hstaged : constraints staged).
  { unfold constraints, staged, staged_assignment.
    cbn [users invalid_tokens ratings]. repeat split; [| |done|done].
    - by rewrite update_row_column_at.
    - by apply update_row_column_fresh. }
  set (w1 := emit Commit (with_tables staged w)).
  assert (Hin1 : edited ∈ users (tables w1)).
  { cbn. by apply (update_row_elem row (λ _, edited)). }
  exists w1. split; [|split; [|split]].
  - unfold routes_users.edit_my_profile, bind.
    rewrite get_user_username_eq.
    rewrite (filter_key_absent username) by done.
    rewrite edit_my_profile_eq, Hemail, row_by_email by done.
    rewrite Hname. cbn [username set_username]. rewrite Hupload. cbv zeta.
    rewrite Hedited. fold staged. rewrite Hstore.
    by rewrite bool_decide_eq_true_2.
  - rewrite get_user_username_eq.
    change name with (username edited) at 1.
    by rewrite row_by_username.
  - rewrite get_user_by_email_eq.
    change (email row) with (email edited).
    by rewrite row_by_email.
  - rewrite get_user_username_eq.
    rewrite (filter_key_absent username); [reflexivity|].
    cbn. by apply (update_row_column_gone username (λ _, edited)).
Qed.

Lemma profile_edit_round_trip_witness :
  constraints (tables world0)
  ∧ storage_ok world0 = true
  ∧ bob ∈ users (tables world0)
  ∧ email bob = email bob
  ∧ str_truthy "robert" = true
  ∧ ("robert" ∉ username <$> users (tables world0))
  ∧ sample_upload [1; 2] ("avatar/" +:+ "robert") = Ok 2
  ∧ let edited :=
      set_avatar (sample_build_url ("avatar/" +:+ "robert") 2)
        (set_username "robert" bob) in
    ∃ w1,
      routes_users.edit_my_profile sample_upload sample_build_url "robert"
        [1; 2] bob world0
      = (Ok (routes_users.mkResponse (Some edited)
               (get_message "MY_PROFILE_WAS_SUCCESSFULLY_EDITED")), w1)
      ∧ repository_users.get_user_username "robert" w1
        = (Ok (Some edited), w1)
      ∧ repository_users.get_user_by_email (email bob) w1
        = (Ok (Some edited), w1)
      ∧ repository_users.get_user_username (username bob) w1 = (Ok None, w1).
Proof.
  assert (H0 : constraints (tables world0)).
  { apply (bool_decide_unpack (constraints (tables world0))).
    vm_compute. exact I. }
  assert (H1 : storage_ok world0 = true) by reflexivity.
  assert (H2 : bob ∈ users (tables world0)).
  { cbn. rewrite !elem_of_cons. auto. }
  assert (H3 : email bob = email bob) by reflexivity.
  assert (H4 : str_truthy "robert" = true) by reflexivity.
  assert (H5 : "robert" ∉ username <$> users (tables world0)).
  { intros Hin. cbn in Hin. absurd_membership Hin. }
  assert (H6 : sample_upload [1; 2] ("avatar/" +:+ "robert") = Ok 2)
    by reflexivity.
  repeat (split; [assumption|]).
  exact (profile_edit_round_trip sample_upload sample_build_url "robert"
           [1; 2] bob bob 2 world0 H0 H1 H2 H3 H4 H5 H6).
Defined.

(** When the upload of the file fails, a profile edit raises the exception
    of the upload and writes nothing: no commit is attempted, and the
    store, the cache and the log are as they were. *)
Theorem failed_upload_changes_nothing {UploadFile UploadResult : Type}
    (upload : UploadFile → string → Res UploadResult)
    (build_url : string → UploadResult → string)
    name file current_user e w :
  name ∉ username <$> users (tables w) →
  email current_user ∈ email <$> users (tables w) →
  (∀ public_id, upload file public_id = Raise e) →
  routes_users.edit_my_profile upload build_url name file current_user w
  = (Raise e, w).
Proof.
  intros Hfree Hknown Hdown.
  unfold routes_users.edit_my_profile, bind.
  rewrite get_user_username_eq.
  rewrite (filter_key_absent username) by done.
  rewrite edit_my_profile_eq.
  destruct (head _) as [row|] eqn:Hrow.
  - cbv zeta. by rewrite Hdown.
  - apply head_None in Hrow.
    apply list_elem_of_fmap in Hknown as (u & Heq & Hu).
    exfalso. apply (filter_nil_not_elem_of _ _ u Hrow); [by symmetry|done].
Qed.

Lemma failed_upload_changes_nothing_witness :
  ("robert" ∉ username <$> users (tables world0))
  ∧ (email bob ∈ email <$> users (tables world0))
  ∧ (∀ public_id, failing_upload [1; 2] public_id = Raise OperationalError)
  ∧ routes_users.edit_my_profile failing_upload sample_build_url "robert"
      [1; 2] bob world0
    = (Raise OperationalError, world0).
Proof.
  assert (H0 : "robert" ∉ username <$> users (tables world0)).
  { intros Hin. cbn in Hin. absurd_membership Hin. }
  assert (H1 : email bob ∈ email <$> users (tables world0)).
  { cbn. rewrite !elem_of_cons. auto. }
  assert (H2 : ∀ public_id,
             failing_upload [1; 2] public_id = Raise OperationalError)
    by reflexivity.
  split; [exact H0|]. split; [exact H1|]. split; [exact H2|].
  exact (failed_upload_changes_nothing failing_upload sample_build_url
           "robert" [1; 2] bob OperationalError world0 H0 H1 H2).
Defined.

(** ** The moderation route, continued *)

Lemma activate_by_admin username0 role_param current_user target w :
  constraints (tables w) →
  storage_ok w = true →
  target_of username0 w target →
  username0 ≠ username current_user →
  roles current_user = Role.admin →
  is_active target = false →
  routes_users.manage_user username0 Action.activate role_param current_user w
  = (Ok (routes_users.mkResponse (Some (set_is_active true target))
           (username target +:+ " " +:+ get_message "USER_HAS_BEEN_ACTIVATED")),
     emit Commit
       (with_tables
          (staged_assignment (set_is_active true) target
             (invalidated ("user:" +:+ email target) w))
          (invalidated ("user:" +:+ email target) w))).
Proof.
  intros Hwf Hstore Hsel Hother Hrole Hactive.
  pose proof (target_of_username _ _ _ Hsel) as Hname.
  pose proof (target_by_email _ _ _ Hwf Hsel) as Hrow.
  unfold routes_users.manage_user, bind at 1.
  rewrite get_user_username_eq, Hsel.
  unfold bind at 1. cbn [redis_delete].
  fold (invalidated ("user:" +:+ email target) w).
  rewrite bool_decide_eq_false_2 by congruence.
  rewrite Hrole, Hactive.
  change (Action.eqb Action.activate Action.ban) with false.
  change (Action.eqb Action.activate Action.activate) with true.
  change (Role.eqb Role.admin Role.admin) with true.
  cbv iota. cbn [negb].
  unfold bind. rewrite activate_user_eq. unfold assignment_outcome.
  cbn [invalidated emit with_redis tables storage_ok].
  rewrite Hrow, Hstore.
  rewrite bool_decide_eq_true_2; [reflexivity|].
  by apply (staged_assignment_constraints (set_is_active true) target
              (invalidated ("user:" +:+ email target) w)).
Qed.

(** The end-to-end scenario of an admin: in a consistent store that accepts
    commits, the ban of an active account other than the admin's own
    succeeds and answers with the account made inactive; the activation that
    follows succeeds and answers with the account as it was; the tables are
    then the ones before the ban, and the cache entry of the account is
    gone. *)
Theorem admin_ban_then_activate username0 role1 role2 current_user target w :
  constraints (tables w) →
  storage_ok w = true →
  target_of username0 w target →
  username0 ≠ username current_user →
  roles current_user = Role.admin →
  is_active target = true →
  ∃ w1 w2,
    routes_users.manage_user username0 Action.ban role1 current_user w
    = (Ok (routes_users.mkResponse (Some (set_is_active false target))
             (username target +:+ " " +:+ get_message "USER_HAS_BEEN_BANNED")),
       w1)
    ∧ routes_users.manage_user username0 Action.activate role2 current_user w1
      = (Ok (routes_users.mkResponse (Some target)
               (username target +:+ " "
                  +:+ get_message "USER_HAS_BEEN_ACTIVATED")),
         w2)
    ∧ tables w2 = tables w
    ∧ redis w2 !! ("user:" +:+ email target) = None.
Proof.
  intros Hwf Hstore Hsel Hother Hrole Hactive.
  set (key := "user:" +:+ email target).
  set (banned := set_is_active false target).
  assert (Hback : set_is_active true banned = target).
  { subst banned. destruct target. cbn in Hactive. subst. reflexivity. }
  assert (Hin : target ∈ users (tables w)).
  { assert (Hin : target ∈ filter (λ u, username u = username0)
                             (users (tables w))).
    { unfold target_of in Hsel. rewrite Hsel.
      apply list_elem_of_singleton. reflexivity. }
    apply list_elem_of_filter in Hin. tauto. }
  set (w1 := emit Commit
               (with_tables
                  (staged_assignment (set_is_active false) target
                     (invalidated key w))
                  (invalidated key w))).
  assert (Hwf1 : constraints (tables w1)).
  { apply (staged_assignment_constraints (set_is_active false) target
             (invalidated key w)); done. }
  assert (Hsel1 : target_of username0 w1 banned).
  { unfold target_of. cbn [w1 emit with_tables tables staged_assignment users
                           invalidated with_redis].
    rewrite update_row_filter by done.
    unfold target_of in Hsel. rewrite Hsel. cbn [update_row].
    by rewrite decide_True. }
  exists w1. eexists. split; [|split; [|split]].
  - by apply ban_by_admin.
  - rewrite (activate_by_admin username0 role2 current_user banned w1)
      by done.
    rewrite Hback. reflexivity.
  - destruct Hwf as (He & _).
    unfold staged_assignment, w1, staged_assignment, invalidated.
    cbn [emit with_tables with_redis tables users invalid_tokens ratings].
    rewrite (update_row_undo target (set_is_active false)
               (set_is_active true)) by done.
    by destruct (tables w).
  - cbn [emit with_tables with_redis redis invalidated w1].
    apply lookup_delete_eq.
Qed.

Lemma admin_ban_then_activate_witness :
  constraints (tables world0)
  ∧ storage_ok world0 = true
  ∧ target_of "bob" world0 bob
  ∧ "bob" ≠ username alice
  ∧ roles alice = Role.admin
  ∧ is_active bob = true
  ∧ ∃ w1 w2,
      routes_users.manage_user "bob" Action.ban None alice world0
      = (Ok (routes_users.mkResponse (Some (set_is_active false bob))
               (username bob +:+ " " +:+ get_message "USER_HAS_BEEN_BANNED")),
         w1)
      ∧ routes_users.manage_user "bob" Action.activate None alice w1
        = (Ok (routes_users.mkResponse (Some bob)
                 (username bob +:+ " "
                    +:+ get_message "USER_HAS_BEEN_ACTIVATED")),
           w2)
      ∧ tables w2 = tables world0
      ∧ redis w2 !! ("user:" +:+ email bob) = None.
Proof.
  assert (H0 : constraints (tables world0)).
  { apply (bool_decide_unpack (constraints (tables world0))).
    vm_compute. exact I. }
  assert (H1 : storage_ok world0 = true) by reflexivity.
  assert (H2 : target_of "bob" world0 bob) by (vm_compute; reflexivity).
  assert (H3 : "bob" ≠ username alice) by discriminate.
  assert (H4 : roles alice = Role.admin) by reflexivity.
  assert (H5 : is_active bob = true) by reflexivity.
  repeat (split; [assumption|]).
  exact (admin_ban_then_activate "bob" None None alice bob world0
           H0 H1 H2 H3 H4 H5).
Defined.

(** Nothing in the store is within the reach of an actor who is not an
    admin: whatever the action, the target and the [role] parameter, the
    tables after the request are the tables before it. *)
Theorem only_admins_change_the_store username0 action role_param
    current_user w :
  roles current_user ≠ Role.admin →
  tables (routes_users.manage_user username0 action role_param
            current_user w).2
  = tables w.
Proof.
  intros Hrole. unfold routes_users.manage_user, bind at 1.
  rewrite get_user_username_eq.
  destruct (filter _ _) as [|target [|other rows]];
    [reflexivity| |reflexivity].
  unfold bind at 1. cbn [redis_delete].
  destruct (bool_decide (username target = username current_user));
    [reflexivity|].
  rewrite admin_or_moderator. unfold Role.eqb.
  rewrite (bool_decide_eq_false_2 (roles current_user = Role.admin)) by done.
  destruct action; reflexivity.
Qed.

Lemma only_admins_change_the_store_witness :
  roles mona ≠ Role.admin
  ∧ tables (routes_users.manage_user "bob" Action.change_role
              (Some Role.admin) mona world0).2
    = tables world0.
Proof.
  assert (H0 : roles mona ≠ Role.admin) by discriminate.
  split; [exact H0|].
  exact (only_admins_change_the_store "bob" Action.change_role
           (Some Role.admin) mona world0 H0).
Defined.

(** An admin who asks for the state the account is already in is refused
    with 400, and nothing is committed: the ban of a banned account and the
    activation of an active account leave the tables as they were (the cache
    entry of the account is deleted all the same). *)
Theorem state_conflicts_are_refused username0 role_param current_user
    target w :
  target_of username0 w target →
  username0 ≠ username current_user →
  roles current_user = Role.admin →
  (is_active target = false →
   routes_users.manage_user username0 Action.ban role_param current_user w
   = (Raise (HTTPException 400 (get_message "USER_HAS_ALREADY_BANNED")),
      invalidated ("user:" +:+ email target) w))
  ∧ (is_active target = true →
     routes_users.manage_user username0 Action.activate role_param
       current_user w
     = (Raise (HTTPException 400 (get_message "USER_ALREADY_ACTIVATED")),
        invalidated ("user:" +:+ email target) w)).
Proof.
  intros Hsel Hother Hrole.
  pose proof (target_of_username _ _ _ Hsel) as Hname.
  split; intros Hactive;
    unfold routes_users.manage_user, bind at 1;
    rewrite get_user_username_eq, Hsel;
    unfold bind at 1; cbn [redis_delete];
    rewrite bool_decide_eq_false_2 by congruence;
    rewrite Hrole, Hactive; reflexivity.
Qed.

Lemma state_conflicts_are_refused_witness :
  target_of "bob" world1 banned_bob
  ∧ "bob" ≠ username alice
  ∧ roles alice = Role.admin
  ∧ is_active banned_bob = false
  ∧ routes_users.manage_user "bob" Action.ban None alice world1
    = (Raise (HTTPException 400 (get_message "USER_HAS_ALREADY_BANNED")),
       invalidated ("user:" +:+ email banned_bob) world1).
Proof.
  assert (H0 : target_of "bob" world1 banned_bob) by (vm_compute; reflexivity).
  assert (H1 : "bob" ≠ username alice) by discriminate.
  assert (H2 : roles alice = Role.admin) by reflexivity.
  assert (H3 : is_active banned_bob = false) by reflexivity.
  repeat (split; [assumption|]).
  exact (proj1 (state_conflicts_are_refused "bob" None alice banned_bob
                  world1 H0 H1 H2) H3).
Defined.

(** A ban or an activation changes nothing but the [is_active] flag of
    rows: whatever the request and its outcome, the [users] table has the
    same rows up to that flag, in the same order, and the other tables are
    untouched. *)
Theorem moderation_changes_only_is_active username0 action role_param
    current_user w :
  action ≠ Action.change_role →
  let out := routes_users.manage_user username0 action role_param
               current_user w in
  set_is_active true <$> users (tables out.2)
  = set_is_active true <$> users (tables w)
  ∧ invalid_tokens (tables out.2) = invalid_tokens (tables w)
  ∧ ratings (tables out.2) = ratings (tables w).
Proof.
  intros Haction out.
  assert (Hout : out = routes_users.manage_user username0 action role_param
                         current_user w) by reflexivity.
  clearbody out. revert Hout.
  unfold routes_users.manage_user, bind at 1.
  rewrite get_user_username_eq.
  destruct (filter _ _) as [|target [|other rows]];
    [intros ->; by (unfold ret, raise; cbn)| |intros ->; by (unfold ret, raise; cbn)].
  unfold bind at 1. cbn [redis_delete].
  destruct (bool_decide (username target = username current_user));
    [intros ->; by (unfold ret, raise; cbn)|].
  destruct action; [| |done].
  - change (Action.eqb Action.ban Action.ban) with true. cbv iota.
    destruct (Role.eqb _ _); [|intros ->; by (unfold ret, raise; cbn)].
    destruct (is_active target); [|intros ->; by (unfold ret, raise; cbn)].
    unfold bind. rewrite ban_user_eq. unfold assignment_outcome.
    destruct (head _) as [row|]; [|intros ->; by (unfold ret, raise; cbn)].
    cbn [emit with_redis tables storage_ok]. destruct (storage_ok w); [|intros ->; by (unfold ret, raise; cbn)].
    destruct (bool_decide _); [|intros ->; by (unfold ret, raise; cbn)].
    intros ->. cbn. by rewrite update_row_column.
  - change (Action.eqb Action.activate Action.ban) with false.
    change (Action.eqb Action.activate Action.activate) with true. cbv iota.
    destruct (Role.eqb _ _); [|intros ->; by (unfold ret, raise; cbn)].
    destruct (negb (is_active target)); [|intros ->; by (unfold ret, raise; cbn)].
    unfold bind. rewrite activate_user_eq. unfold assignment_outcome.
    destruct (head _) as [row|]; [|intros ->; by (unfold ret, raise; cbn)].
    cbn [emit with_redis tables storage_ok]. destruct (storage_ok w); [|intros ->; by (unfold ret, raise; cbn)].
    destruct (bool_decide _); [|intros ->; by (unfold ret, raise; cbn)].
    intros ->. cbn. by rewrite update_row_column.
Qed.

Lemma moderation_changes_only_is_active_witness :
  Action.ban ≠ Action.change_role
  ∧ let out := routes_users.manage_user "bob" Action.ban None alice world0 in
    set_is_active true <$> users (tables out.2)
    = set_is_active true <$> users (tables world0)
    ∧ invalid_tokens (tables out.2) = invalid_tokens (tables world0)
    ∧ ratings (tables out.2) = ratings (tables world0).
Proof.
  assert (H0 : Action.ban ≠ Action.change_role) by discriminate.
  split; [exact H0|].
  exact (moderation_changes_only_is_active "bob" Action.ban None alice
           world0 H0).
Defined.

(** ** Rating a picture *)

(** A rating below 1 or above 5 is refused with 400 before the repository
    is called, whatever the repository does: the store, the cache and the
    log are as they were.  A rating from 1 to 5 is handed to the repository
    as it is, and the answer of the repository is the answer of the route. *)
Theorem rating_out_of_range_is_refused {R : Type}
    (repository : Z → Z → User → M R) picture_id rating0 current_user w :
  ((rating0 < 1)%Z ∨ (5 < rating0)%Z →
   routes_rating.create_picture_rating repository picture_id rating0
     current_user w
   = (Raise (HTTPException 400 "Rating must be between 1 and 5"), w))
  ∧ ((1 ≤ rating0 ≤ 5)%Z →
     routes_rating.create_picture_rating repository picture_id rating0
       current_user w
     = match repository picture_id rating0 current_user w with
       | (Ok row, w') =>
           (Ok (routes_rating.mkRatingResponse row
                  "Rating successfully added"), w')
       | (Raise e, w') => (Raise e, w')
       end).
Proof.
  unfold routes_rating.create_picture_rating. split; intros Hrange.
  - rewrite bool_decide_eq_false_2 by lia. reflexivity.
  - rewrite bool_decide_eq_true_2 by lia. reflexivity.
Qed.

Lemma rating_out_of_range_is_refused_witness :
  ((6 < 1)%Z ∨ (5 < 6)%Z)
  ∧ routes_rating.create_picture_rating
      (λ picture_id rating0 u, ret (mkRating (id u) picture_id rating0))
      3 6 bob world0
    = (Raise (HTTPException 400 "Rating must be between 1 and 5"), world0).
Proof.
  assert (H0 : (6 < 1)%Z ∨ (5 < 6)%Z) by (right; lia).
  split; [exact H0|].
  exact (proj1 (rating_out_of_range_is_refused
                  (λ picture_id rating0 u,
                     ret (mkRating (id u) picture_id rating0))
                  3 6 bob world0) H0).
Defined.
